(** * blueapi: the REST control surface and the command-line client

    A shallow embedding of [src/blueapi/service/main.py] (the FastAPI
    endpoints) and [src/blueapi/cli/cli.py] (the click commands), with the
    statements of the control-surface contract proved over it.

    Python objects that the endpoints mutate (the injected [Response], the
    handler's worker) are threaded through a state-and-exception monad; a
    raised exception keeps the state reached so far, as in Python. *)

From Stdlib Require Import ZArith.
From stdpp Require Import base option gmap strings list pretty.

Local Open Scope Z_scope.
Local Open Scope string_scope.
Local Open Scope list_scope.
Local Set Warnings "-register-all".

(** ** Python control flow: exceptions over mutable state *)

Module Py.

(** The exception classes that occur in the two source files, and the
    worker's own failures (which the endpoints never catch). *)
Inductive exn : Type :=
| HTTPException (status_code : Z) (detail : string)
| KeyError (key : string)
| ConnectionError
| JSONDecodeError
| TypeError
| WorkerError (what : string).

Inductive outcome (A : Type) : Type :=
| Return (a : A)
| Raise (e : exn).
Arguments Return {A} a.
Arguments Raise {A} e.

Record M (S A : Type) : Type := Run { run : S → outcome A * S }.
Arguments Run {S A} _.
Arguments run {S A} _ _.

Definition ret {S A} (a : A) : M S A := Run (λ s, (Return a, s)).

Definition bind {S A B} (m : M S A) (k : A → M S B) : M S B :=
  Run (λ s, match run m s with
            | (Return a, s') => run (k a) s'
            | (Raise e, s') => (Raise e, s')
            end).

Definition raise {S A} (e : exn) : M S A := Run (λ s, (Raise e, s)).

Definition gets {S A} (f : S → A) : M S A := Run (λ s, (Return (f s), s)).

Definition modify {S} (f : S → S) : M S unit := Run (λ s, (Return (), f s)).

(** [try: body except <class>: handler]: [handler e] is [Some h] when
    the except clause matches [e]. *)
Definition try_except {S A} (body : M S A) (handler : exn → option (M S A)) : M S A :=
  Run (λ s, match run body s with
            | (Return a, s') => (Return a, s')
            | (Raise e, s') =>
                match handler e with
                | Some h => run h s'
                | None => (Raise e, s')
                end
            end).

(** [try: body finally: cleanup], which is what a [with] block does with
    the context manager's [__exit__]. *)
Definition finally {S A} (body : M S A) (cleanup : M S unit) : M S A :=
  Run (λ s, match run body s with
            | (Return a, s') =>
                match run cleanup s' with
                | (Return _, s'') => (Return a, s'')
                | (Raise e, s'') => (Raise e, s'')
                end
            | (Raise e, s') =>
                match run cleanup s' with
                | (Return _, s'') => (Raise e, s'')
                | (Raise e', s'') => (Raise e', s'')
                end
            end).

Global Instance M_ret {S} : MRet (M S) := λ A, @ret S A.
Global Instance M_bind {S} : MBind (M S) := λ A B k m, @bind S A B m k.

End Py.
Export Py.

(** ** blueapi.worker: the types the endpoints exchange with the worker *)

(** Modelled from the spec: the enumeration [WorkerState] is imported from
    [blueapi.worker], which is not part of the sources at hand; the data
    model gives it as the closed enumeration IDLE, RUNNING, PAUSED, and the
    tests use exactly these three members. *)
Inductive WorkerState : Type := IDLE | RUNNING | PAUSED.

Global Instance WorkerState_eq_dec : EqDecision WorkerState.
Proof. solve_decision. Defined.

Global Instance WorkerState_countable : Countable WorkerState.
Proof.
  refine (inj_countable'
            (λ s, match s with IDLE => 0%nat | RUNNING => 1%nat | PAUSED => 2%nat end)
            (λ n, match n with O => IDLE | S O => RUNNING | _ => PAUSED end) _).
  by intros [].
Defined.

(** JSON values, for the parameter bag of a task and for the bodies the
    command-line client sends and receives. *)
Inductive json : Type :=
| JNull
| JBool (b : bool)
| JNum (n : Z)
| JStr (s : string)
| JArr (items : list json)
| JObj (members : list (string * json)).

(** [RunPlan(name=..., params=...)] *)
Record RunPlan : Type := { rp_name : string; rp_params : list (string * json) }.

(** Modelled from the spec: [TrackableTask] as the data model describes it
    (identifier, task definition, completion flag, error list). *)
Record TrackableTask : Type :=
  { tt_task_id : string; tt_task : RunPlan; is_complete : bool; errors : list string }.

(** The calls that command the worker; the reads ([state],
    [get_active_task], [get_pending_task]) change nothing and are not
    recorded. The record plays the part of the tests' [MagicMock]. *)
Inductive WorkerCall : Type :=
| Called_submit_task (task : RunPlan)
| Called_begin_task (task_id : string)
| Called_pause (defer : option bool)
| Called_resume.

Module WorkerAPI.

(** Modelled from the spec: the worker's interface ([blueapi.worker] is
    outside the sources at hand). [W] is the worker's whole state. The
    spec gives no failure for [submit_task], [pause] and [resume];
    [begin_task] may fail (the Conflict condition), in which case the
    worker is left as it was. *)
Class Worker (W : Type) : Type :=
  { state : W → WorkerState;
    get_active_task : W → option TrackableTask;
    get_pending_task : string → W → option TrackableTask;
    submit_task : RunPlan → W → string * W;
    begin_task : string → W → exn + W;
    pause : option bool → W → W;
    resume : W → W }.

End WorkerAPI.

(** ** blueapi/service/main.py *)

Module Service.

(** [fastapi.status] *)
Definition HTTP_200_OK : Z := 200.
Definition HTTP_201_CREATED : Z := 201.
Definition HTTP_202_ACCEPTED : Z := 202.
Definition HTTP_400_BAD_REQUEST : Z := 400.
Definition HTTP_404_NOT_FOUND : Z := 404.
Definition HTTP_409_CONFLICT : Z := 409.
Definition HTTP_500_INTERNAL_SERVER_ERROR : Z := 500.

(** [.model]: the request and response bodies. *)
Record StateChangeRequest : Type :=
  { new_state : WorkerState; defer : option bool }.
Record WorkerTask : Type := { task_id : option string }.
Record TaskResponse : Type := { tr_task_id : string }.

(** The [Request] of an endpoint (only its URL is read) and the
    temporary [Response] FastAPI injects, on which an endpoint may set
    the status code and headers. *)
Record Request : Type := { url : string }.
Record Response : Type :=
  { status_code : option Z; headers : gmap string string }.

(** Map of current_state: allowed new_states *)
Definition _ALLOWED_TRANSITIONS : gmap WorkerState (gset WorkerState) :=
  <[RUNNING := {[PAUSED]}]> (<[PAUSED := {[RUNNING]}]> ∅).

(** A pair is in the table when the current state is a key of
    [_ALLOWED_TRANSITIONS] and the requested state is in its set. *)
Definition in_table (current_state new_state : WorkerState) : Prop :=
  ∃ targets : gset WorkerState,
    _ALLOWED_TRANSITIONS !! current_state = Some targets ∧ new_state ∈ targets.

(** [current_state in _ALLOWED_TRANSITIONS
     and new_state in _ALLOWED_TRANSITIONS[current_state]] *)
Definition transition_allowed (current_state new_state : WorkerState) : bool :=
  match _ALLOWED_TRANSITIONS !! current_state with
  | Some targets => bool_decide (new_state ∈ targets)
  | None => false
  end.

Section Endpoints.
(** [Plan], [Device] and their response models come from modules
    outside the sources at hand; they are parameters, with the two
    conversions [PlanModel.from_plan] and [DeviceModel.from_device]. *)
Context {Plan PlanModel Device DeviceModel : Type}.
Context (from_plan : Plan → PlanModel) (from_device : Device → DeviceModel).
Context {W : Type} `{!WorkerAPI.Worker W}.

Record BlueskyContext : Type :=
  { plans : gmap string Plan; devices : gmap string Device }.

(** [Handler]: what [Depends(get_handler)] hands to every endpoint. *)
Record Handler : Type := { context : BlueskyContext; worker : W }.

(** What one request can read and mutate: the handler, the injected
    response, and the record of calls made on the worker. *)
Record Env : Type :=
  { handler : Handler; response : Response; calls : list WorkerCall }.

Definition with_worker (w : W) (calls' : list WorkerCall) (e : Env) : Env :=
  {| handler := {| context := context (handler e); worker := w |};
     response := response e;
     calls := calls' |}.

Definition with_response (r : Response) (e : Env) : Env :=
  {| handler := handler e; response := r; calls := calls e |}.

(** *** The worker seen from an endpoint *)

(** [handler.worker.state] *)
Definition worker_state : M Env WorkerState :=
  gets (λ e, WorkerAPI.state (worker (handler e))).

(** [handler.worker.get_active_task()] *)
Definition worker_get_active_task : M Env (option TrackableTask) :=
  gets (λ e, WorkerAPI.get_active_task (worker (handler e))).

(** [handler.worker.get_pending_task(task_id)] *)
Definition worker_get_pending_task (id : string) : M Env (option TrackableTask) :=
  gets (λ e, WorkerAPI.get_pending_task id (worker (handler e))).

(** [handler.worker.submit_task(task)] *)
Definition worker_submit_task (task : RunPlan) : M Env string :=
  Run (λ e,
    let '(id, w) := WorkerAPI.submit_task task (worker (handler e)) in
    (Return id, with_worker w (calls e ++ [Called_submit_task task]) e)).

(** [handler.worker.begin_task(task_id)] *)
Definition worker_begin_task (id : string) : M Env unit :=
  Run (λ e,
    let calls' := calls e ++ [Called_begin_task id] in
    match WorkerAPI.begin_task id (worker (handler e)) with
    | inr w => (Return (), with_worker w calls' e)
    | inl err => (Raise err, with_worker (worker (handler e)) calls' e)
    end).

(** [handler.worker.pause(defer=...)] *)
Definition worker_pause (d : option bool) : M Env unit :=
  modify (λ e, with_worker (WorkerAPI.pause d (worker (handler e)))
                           (calls e ++ [Called_pause d]) e).

(** [handler.worker.resume()] *)
Definition worker_resume : M Env unit :=
  modify (λ e, with_worker (WorkerAPI.resume (worker (handler e)))
                           (calls e ++ [Called_resume]) e).

(** [response.status_code = code] *)
Definition set_status_code (code : Z) : M Env unit :=
  modify (λ e, with_response
                 {| status_code := Some code; headers := headers (response e) |} e).

(** [response.headers[key] = value] *)
Definition set_header (key value : string) : M Env unit :=
  modify (λ e, with_response
                 {| status_code := status_code (response e);
                    headers := <[key := value]> (headers (response e)) |} e).

(** *** The endpoints *)

(** [GET /plans/{name}] *)
Definition get_plan_by_name (name : string) : M Env PlanModel :=
  try_except
    (ctx ← gets (λ e, context (handler e));
     match plans ctx !! name with
     | Some plan => mret (from_plan plan)
     | None => raise (KeyError name)
     end)
    (λ e, match e with
          | KeyError _ => Some (raise (HTTPException 404 "Item not found"))
          | _ => None
          end).

(** [GET /devices/{name}] *)
Definition get_device_by_name (name : string) : M Env DeviceModel :=
  try_except
    (ctx ← gets (λ e, context (handler e));
     match devices ctx !! name with
     | Some device => mret (from_device device)
     | None => raise (KeyError name)
     end)
    (λ e, match e with
          | KeyError _ => Some (raise (HTTPException 404 "Item not found"))
          | _ => None
          end).

(** [POST /tasks] *)
Definition submit_task (request : Request) (task : RunPlan) : M Env TaskResponse :=
  task_id ← worker_submit_task task;
  set_header "Location" (url request +:+ "/" +:+ task_id);;
  mret {| tr_task_id := task_id |}.

(** [active_task is not None and not active_task.is_complete] *)
Definition active_and_incomplete (active_task : option TrackableTask) : bool :=
  match active_task with
  | Some active => negb (is_complete active)
  | None => false
  end.

(** [PUT /worker/task] *)
Definition update_task (task : WorkerTask) : M Env WorkerTask :=
  active_task ← worker_get_active_task;
  (if active_and_incomplete active_task
   then raise (HTTPException 409 "Worker already active")
   else match task_id task with
        | Some id => worker_begin_task id
        | None => mret ()
        end);;
  mret task.

(** [GET /tasks/{task_id}] *)
Definition get_task (id : string) : M Env TrackableTask :=
  task ← worker_get_pending_task id;
  match task with
  | Some t => mret t
  | None => raise (HTTPException 404 "Item not found")
  end.

(** [GET /worker/state] *)
Definition get_state : M Env WorkerState := worker_state.

(** [PUT /worker/state] *)
Definition set_state (state_change_request : StateChangeRequest) : M Env WorkerState :=
  current_state ← worker_state;
  let new_state := new_state state_change_request in
  (if transition_allowed current_state new_state
   then
     set_status_code HTTP_202_ACCEPTED;;
     if bool_decide (new_state = PAUSED)
     then worker_pause (defer state_change_request)
     else if bool_decide (new_state = RUNNING)
          then worker_resume
          else mret ()
   else mret ());;
  worker_state.

(** *** The application: routes and their declared status codes *)

(** What the client receives: the endpoint's return value, the detail
    of an [HTTPException], or the server's answer to an exception no
    endpoint handles. *)
Inductive Body (A : Type) : Type :=
| Content (a : A)
| Detail (d : string)
| InternalServerError (e : exn).

Record HttpResponse (A : Type) : Type :=
  { http_status : Z; http_headers : gmap string string; http_body : Body A }.

Definition fresh_response : Response := {| status_code := None; headers := ∅ |}.

(** One request through a route declared with [status_code=declared]:
    the endpoint runs on the handler with a fresh injected response;
    a status code or header set on the injected response overrides the
    declared one; an [HTTPException] becomes a response with its own
    status code and detail; any other exception is a 500. The result
    is the response, the handler afterwards, and the calls made on the
    worker. *)
Definition serve {A} (declared : Z) (endpoint : M Env A) (h : Handler)
  : HttpResponse A * Handler * list WorkerCall :=
  match run endpoint {| handler := h; response := fresh_response; calls := [] |} with
  | (Return a, e) =>
      ({| http_status := default declared (status_code (response e));
          http_headers := headers (response e);
          http_body := Content A a |}, handler e, calls e)
  | (Raise (HTTPException code detail), e) =>
      ({| http_status := code; http_headers := ∅; http_body := Detail A detail |},
       handler e, calls e)
  | (Raise err, e) =>
      ({| http_status := HTTP_500_INTERNAL_SERVER_ERROR; http_headers := ∅;
          http_body := InternalServerError A err |}, handler e, calls e)
  end.

(** [@app.get("/plans/{name}", ...)] *)
Definition GET_plans_name (name : string) := serve HTTP_200_OK (get_plan_by_name name).
(** [@app.get("/devices/{name}", ...)] *)
Definition GET_devices_name (name : string) := serve HTTP_200_OK (get_device_by_name name).
(** [@app.post("/tasks", response_model=TaskResponse, status_code=201)] *)
Definition POST_tasks (request : Request) (task : RunPlan) :=
  serve HTTP_201_CREATED (submit_task request task).
(** [@app.put("/worker/task", ...)] *)
Definition PUT_worker_task (task : WorkerTask) := serve HTTP_200_OK (update_task task).
(** [@app.get("/tasks/{task_id}", ...)] *)
Definition GET_tasks_id (id : string) := serve HTTP_200_OK (get_task id).
(** [@app.get("/worker/state")] *)
Definition GET_worker_state := serve HTTP_200_OK get_state.
(** [@app.put("/worker/state", status_code=status.HTTP_400_BAD_REQUEST, ...)] *)
Definition PUT_worker_state (state_change_request : StateChangeRequest) :=
  serve HTTP_400_BAD_REQUEST (set_state state_change_request).

(** *** Shapes of results, for the statements below *)

(** The handler with its worker replaced and its catalogue kept. *)
Definition replace_worker (h : Handler) (w : W) : Handler :=
  {| context := context h; worker := w |}.

(** A response without headers carrying the endpoint's value. *)
Definition reply {A} (code : Z) (a : A) : HttpResponse A :=
  {| http_status := code; http_headers := ∅; http_body := Content A a |}.

(** The response to an [HTTPException]. *)
Definition refusal {A} (code : Z) (detail : string) : HttpResponse A :=
  {| http_status := code; http_headers := ∅; http_body := Detail A detail |}.

End Endpoints.

Arguments Content {A} a.
Arguments Detail {A} d.
Arguments InternalServerError {A} e.
Arguments http_status {A} _.
Arguments http_headers {A} _.
Arguments http_body {A} _.
Arguments BlueskyContext : clear implicits.
Arguments Handler : clear implicits.
Arguments Env : clear implicits.

End Service.

(** ** blueapi/cli/cli.py *)

Module Cli.

(** [config.api.host], [config.api.port] *)
Record ApiConfig : Type := { host : string; port : Z }.
Record ApplicationConfig : Type := { api : ApiConfig }.

Inductive Method : Type := GET | PUT.

Record HttpRequest : Type :=
  { method : Method; target : string; payload : option json }.

(** A [requests.Response]: [json_body] is [None] when the body is not
    JSON, in which case [resp.json()] raises. *)
Record HttpReply : Type := { status_code : Z; json_body : option json }.

(** What the client does to the outside world, in the order it does it:
    the AMQ client's context manager and methods, HTTP requests, and
    lines written to standard output. *)
Inductive Event : Type :=
| AmqEnter
| AmqExit
| AmqSubscribeToTopics (task_id : json)
| AmqWaitForComplete
| Http (request : HttpRequest)
| Print (line : string)
| PPrint (value : json).

Definition World : Type := list Event.

(** [obj[key]] on a decoded JSON value: a [dict] (whose keys are
    unique) is looked up and raises [KeyError] on a missing key; the
    other JSON values do not accept a string subscript. *)
Fixpoint dict_get (members : list (string * json)) (key : string) : option json :=
  match members with
  | [] => None
  | (k, v) :: rest => if String.eqb k key then Some v else dict_get rest key
  end.

Definition getitem (obj : json) (key : string) : outcome json :=
  match obj with
  | JObj members =>
      match dict_get members key with
      | Some v => Return v
      | None => Raise (KeyError key)
      end
  | _ => Raise TypeError
  end.

Section Commands.
(** The environment of the client: the network with the server behind
    it, answering a request after the events so far with a reply or
    an exception ([ConnectionError] when it cannot be reached);
    [json.loads]; and Python's formatting of a JSON value that is not
    a string. *)
Context (network : World → HttpRequest → outcome HttpReply).
Context (json_loads : string → outcome json).
Context (py_repr : json → string).

Definition emit (ev : Event) : M World unit := modify (λ w, w ++ [ev]).

Definition lift {A} (o : outcome A) : M World A := Run (λ w, (o, w)).

(** [print(line)] *)
Definition print (line : string) : M World unit := emit (Print line).

(** [pprint(value)] *)
Definition pprint (value : json) : M World unit := emit (PPrint value).

(** [requests.get(url)] and [requests.put(url, json=...)] *)
Definition requests_send (request : HttpRequest) : M World HttpReply :=
  Run (λ w, (network w request, w ++ [Http request])).

Definition requests_get (url : string) : M World HttpReply :=
  requests_send {| method := GET; target := url; payload := None |}.

Definition requests_put (url : string) (body : option json) : M World HttpReply :=
  requests_send {| method := PUT; target := url; payload := body |}.

(** [resp.json()] *)
Definition reply_json (resp : HttpReply) : M World json :=
  match json_body resp with
  | Some j => mret j
  | None => raise JSONDecodeError
  end.

(** [f"{value}"] *)
Definition format_value (value : json) : string :=
  match value with
  | JStr s => s
  | _ => py_repr value
  end.

(** [f"http://{config.api.host}:{config.api.port}"] *)
Definition base_url (config : ApplicationConfig) : string :=
  "http://" +:+ host (api config) +:+ ":" +:+ pretty (port (api config)).

Definition connection_failure_message : string :=
  "Failed to establish connection to FastAPI server.".

(** [check_connection(func)]: the [wrapper] it returns. *)
Definition check_connection {A} (func : M World A) : M World unit :=
  try_except
    (func;; mret ())
    (λ e, match e with
          | ConnectionError => Some (print connection_failure_message)
          | _ => None
          end).

(** [controller plans] before decoration. *)
Definition get_plans (obj : ApplicationConfig) : M World unit :=
  let config := obj in
  resp ← requests_get (base_url config +:+ "/plans");
  print ("Response returned with " +:+ pretty (status_code resp) +:+ ": ");;
  body ← reply_json resp;
  pprint body.

(** [controller devices] before decoration. *)
Definition get_devices (obj : ApplicationConfig) : M World unit :=
  let config := obj in
  resp ← requests_get (base_url config +:+ "/devices");
  print ("Response returned with " +:+ pretty (status_code resp) +:+ ": ");;
  body ← reply_json resp;
  pprint body.

(** [controller run] before decoration. The [with amq_client:] block
    enters the client, runs the body, and leaves the client whether or
    not the body raised. The [id] option is accepted and unused.
    [AmqWaitForComplete] records the call of [wait_for_complete]; what
    comes after it in a trace is what the run does once the wait has
    returned, which the AMQ client may never let it do. *)
Definition run_plan (obj : ApplicationConfig) (name parameters : string)
                    (id : option string) : M World unit :=
  let config := obj in
  emit AmqEnter;;
  finally
    (params ← lift (json_loads parameters);
     create_resp ← requests_put (base_url config +:+ "/task")
                     (Some (JObj [("name", JStr name); ("params", params)]));
     created ← reply_json create_resp;
     task_id ← lift (getitem created "taskId");
     emit (AmqSubscribeToTopics task_id);;
     started_resp ← requests_put
                      (base_url config +:+ "/started/" +:+ format_value task_id) None;
     print ("Response returned with " +:+ pretty (status_code started_resp));;
     emit AmqWaitForComplete)
    (emit AmqExit).

(** The two requests of [run_plan]. *)
Definition create_request (config : ApplicationConfig) (name : string)
                          (params : json) : HttpRequest :=
  {| method := PUT; target := base_url config +:+ "/task";
     payload := Some (JObj [("name", JStr name); ("params", params)]) |}.

Definition begin_request (config : ApplicationConfig) (task_id : json) : HttpRequest :=
  {| method := PUT;
     target := base_url config +:+ "/started/" +:+ format_value task_id;
     payload := None |}.

(** The commands as click registers them: [@check_connection] wraps
    each of them. *)
Definition controller_plans (obj : ApplicationConfig) : M World unit :=
  check_connection (get_plans obj).
Definition controller_devices (obj : ApplicationConfig) : M World unit :=
  check_connection (get_devices obj).
Definition controller_run (obj : ApplicationConfig) (name parameters : string)
                          (id : option string) : M World unit :=
  check_connection (run_plan obj name parameters id).

End Commands.

(** What [check_connection] makes of the one run of the function it
    wraps: a normal return loses its value, a [ConnectionError] becomes
    a printed line, any other exception goes on to the caller. *)
Definition checked {A} (result : outcome A * World) : outcome unit * World :=
  match result with
  | (Return _, w') => (Return (), w')
  | (Raise ConnectionError, w') =>
      (Return (), w' ++ [Print connection_failure_message])
  | (Raise e, w') => (Raise e, w')
  end.

(** *** Reading the order of steps off a run *)

(** The steps of the run protocol. Of the two requests [run_plan]
    sends, the one with a body creates the task and the one without
    signals begin; entering and leaving the AMQ client are not steps. *)
Inductive Step : Type := Create | Subscribe | Begin | Block | Printed.

Definition step_of (ev : Event) : option Step :=
  match ev with
  | Http request =>
      Some (match payload request with Some _ => Create | None => Begin end)
  | AmqSubscribeToTopics _ => Some Subscribe
  | AmqWaitForComplete => Some Block
  | Print _ | PPrint _ => Some Printed
  | AmqEnter | AmqExit => None
  end.

Definition steps (w : World) : list Step := omap step_of w.

(** No begin is signalled unless a subscription was made earlier in the
    run ([subscribed] tells whether one was made before [w] starts). *)
Fixpoint begin_follows_subscribe (subscribed : bool) (w : World) : bool :=
  match w with
  | [] => true
  | ev :: rest =>
      match step_of ev with
      | Some Subscribe => begin_follows_subscribe true rest
      | Some Begin => subscribed && begin_follows_subscribe subscribed rest
      | _ => begin_follows_subscribe subscribed rest
      end
  end.

(** The order as the protocol is worded: create, subscribe, begin,
    block until the terminal message, print. *)
Definition worded_order (w : World) : Prop :=
  steps w = [Create; Subscribe; Begin; Block; Printed].

End Cli.

(** ** A worker to run the endpoints on *)

Module TestDouble.

(** Modelled from the spec: a worker with a task registry, an active-task
    reference and a state cell, standing in for [blueapi.worker]'s
    implementation, which is outside the sources at hand. As with the
    tests' [mockable_state_machine] fixture, the engine behind it either
    reports a requested pause or resume at once ([synchronous]), or has
    not yet reported it when the call returns. *)
Record SimWorker : Type :=
  { cell : WorkerState;
    registry : gmap string TrackableTask;
    active : option string;
    synchronous : bool }.

(** [worker._on_state_change(state)], the engine's callback. *)
Definition _on_state_change (s : WorkerState) (w : SimWorker) : SimWorker :=
  {| cell := s; registry := registry w; active := active w;
     synchronous := synchronous w |}.

Definition sim_get_active_task (w : SimWorker) : option TrackableTask :=
  match active w with
  | Some id => registry w !! id
  | None => None
  end.

Definition sim_busy (w : SimWorker) : bool :=
  match sim_get_active_task w with
  | Some t => negb (is_complete t)
  | None => false
  end.

Definition sim_submit_task (task : RunPlan) (w : SimWorker) : string * SimWorker :=
  let id := "task-" +:+ pretty (size (registry w)) in
  (id, {| cell := cell w;
          registry := <[id := {| tt_task_id := id; tt_task := task;
                                 is_complete := false; errors := [] |}]> (registry w);
          active := active w;
          synchronous := synchronous w |}).

Definition sim_begin_task (id : string) (w : SimWorker) : exn + SimWorker :=
  if sim_busy w
  then inl (WorkerError "Conflict")
  else inr {| cell := cell w; registry := registry w; active := Some id;
              synchronous := synchronous w |}.

Definition sim_pause (d : option bool) (w : SimWorker) : SimWorker :=
  if synchronous w then _on_state_change PAUSED w else w.

Definition sim_resume (w : SimWorker) : SimWorker :=
  if synchronous w then _on_state_change RUNNING w else w.

Global Instance sim_worker : WorkerAPI.Worker SimWorker :=
  {| WorkerAPI.state := cell;
     WorkerAPI.get_active_task := sim_get_active_task;
     WorkerAPI.get_pending_task := λ id w, registry w !! id;
     WorkerAPI.submit_task := sim_submit_task;
     WorkerAPI.begin_task := sim_begin_task;
     WorkerAPI.pause := sim_pause;
     WorkerAPI.resume := sim_resume |}.

(** The task of the tests: [RunPlan(name="count", params={"detectors": ["x"]})]. *)
Definition _TASK : RunPlan :=
  {| rp_name := "count"; rp_params := [("detectors", JArr [JStr "x"])] |}.

Definition idle_worker (sync : bool) : SimWorker :=
  {| cell := IDLE; registry := ∅; active := None; synchronous := sync |}.

(** A handler whose catalogue holds one plan and one device, named as in
    the tests; plans and devices are represented by their names. *)
Definition handler_with (w : SimWorker) : Service.Handler string string SimWorker :=
  {| Service.context :=
       {| Service.plans := {[ "my-plan" := "my-plan" ]};
          Service.devices := {[ "my-device" := "my-device" ]} |};
     Service.worker := w |}.

(** A worker that is running one submitted task. *)
Definition running_worker (sync : bool) : SimWorker :=
  let '(id, w) := sim_submit_task _TASK (idle_worker sync) in
  match sim_begin_task id w with
  | inr w' => _on_state_change RUNNING w'
  | inl _ => w
  end.

(** A worker that holds one submitted task and has not begun it. *)
Definition submitted_worker (sync : bool) : SimWorker :=
  (sim_submit_task _TASK (idle_worker sync)).2.

(** A worker whose one task was begun, run and paused. *)
Definition paused_worker (sync : bool) : SimWorker :=
  _on_state_change PAUSED (running_worker sync).

(** The request of the tests that ask to run or resume. *)
Definition resume_request : Service.StateChangeRequest :=
  {| Service.new_state := RUNNING; Service.defer := None |}.

(** The request of the tests' deferred pause. *)
Definition pause_request : Service.StateChangeRequest :=
  {| Service.new_state := PAUSED; Service.defer := Some true |}.

(** The network of a client whose server answers every request with
    status 200 and a body naming the task ["t1"], and the network of a
    client that cannot reach its server. *)
Definition answering : Cli.World → Cli.HttpRequest → outcome Cli.HttpReply :=
  λ _ _, Return {| Cli.status_code := 200;
                   Cli.json_body := Some (JObj [("taskId", JStr "t1")]) |}.

Definition unreachable : Cli.World → Cli.HttpRequest → outcome Cli.HttpReply :=
  λ _ _, Raise ConnectionError.

(** A stand-in for [json.loads] that knows the empty object only. *)
Definition loads_stub (text : string) : outcome json :=
  if String.eqb text "{}" then Return (JObj []) else Raise JSONDecodeError.

Definition repr_stub (value : json) : string := "".

Definition config : Cli.ApplicationConfig :=
  {| Cli.api := {| Cli.host := "localhost"; Cli.port := 8000 |} |}.

End TestDouble.

(** ** The rest of the application in blueapi/service/main.py *)

Module App.
Import Stdlib.Strings.Ascii.
Import Service.

Definition REST_API_VERSION : string := "0.0.3".

(** [.model]: the bodies of the two listings. *)
Record PlanResponse (PlanModel : Type) : Type := { pr_plans : list PlanModel }.
Record DeviceResponse (DeviceModel : Type) : Type := { dr_devices : list DeviceModel }.
Arguments pr_plans {PlanModel} _.
Arguments dr_devices {DeviceModel} _.

(** *** The route table *)

Inductive HttpMethod : Type := GET | POST | PUT.

(** A path template is a list of segments: ["/plans/{name}"] is
    [[Lit "plans"; Param "name"]]. *)
Inductive Segment : Type := Lit (text : string) | Param (name : string).

Inductive Endpoint : Type :=
| Docs
| To_get_plans
| To_get_plan_by_name
| To_get_devices
| To_get_device_by_name
| To_submit_task
| To_update_task
| To_get_task
| To_get_active_task
| To_get_state
| To_set_state.

(** The routes in the order they are registered: those FastAPI adds for
    the documentation ([docs_url="/docs"], and its defaults for the
    schema, the OAuth2 redirect and ReDoc), then one for each decorated
    function, from top to bottom of the file. *)
Definition ROUTES : list (HttpMethod * list Segment * Endpoint) :=
  [ (GET, [Lit "openapi.json"], Docs);
    (GET, [Lit "docs"], Docs);
    (GET, [Lit "docs"; Lit "oauth2-redirect"], Docs);
    (GET, [Lit "redoc"], Docs);
    (GET, [Lit "plans"], To_get_plans);
    (GET, [Lit "plans"; Param "name"], To_get_plan_by_name);
    (GET, [Lit "devices"], To_get_devices);
    (GET, [Lit "devices"; Param "name"], To_get_device_by_name);
    (POST, [Lit "tasks"], To_submit_task);
    (PUT, [Lit "worker"; Lit "task"], To_update_task);
    (GET, [Lit "tasks"; Param "task_id"], To_get_task);
    (GET, [Lit "worker"; Lit "task"], To_get_active_task);
    (GET, [Lit "worker"; Lit "state"], To_get_state);
    (PUT, [Lit "worker"; Lit "state"], To_set_state) ].

(** [s.split(sep)] *)
Fixpoint split_on (sep : Ascii.ascii) (s : string) : list string :=
  match s with
  | EmptyString => [EmptyString]
  | String c rest =>
      if Ascii.eqb c sep
      then EmptyString :: split_on sep rest
      else match split_on sep rest with
           | seg :: segs => String c seg :: segs
           | [] => [String c EmptyString]
           end
  end.

(** The segments of a request path, which starts with a slash. *)
Definition path_segments (path : string) : option (list string) :=
  match path with
  | String c rest => if Ascii.eqb c "/"%char then Some (split_on "/"%char rest) else None
  | EmptyString => None
  end.

(** A literal segment matches itself; a parameter matches any segment
    that is not empty (and holds no slash, being a segment). *)
Definition segment_matches (template : Segment) (segment : string) : bool :=
  match template with
  | Lit text => String.eqb text segment
  | Param _ => negb (String.eqb segment "")
  end.

Fixpoint template_matches (template : list Segment) (segments : list string) : bool :=
  match template, segments with
  | [], [] => true
  | t :: template', s :: segments' =>
      segment_matches t s && template_matches template' segments'
  | _, _ => false
  end.

Definition method_eqb (a b : HttpMethod) : bool :=
  match a, b with
  | GET, GET | POST, POST | PUT, PUT => true
  | _, _ => false
  end.

Definition route_matches (method : HttpMethod) (segments : list string)
                         (route : HttpMethod * list Segment * Endpoint) : bool :=
  method_eqb method route.1.1 && template_matches route.1.2 segments.

(** The endpoint a request goes to: that of the first route that matches
    its method and path, if any. *)
Definition match_route (method : HttpMethod) (path : string) : option Endpoint :=
  match path_segments path with
  | Some segments => snd <$> List.find (route_matches method segments) ROUTES
  | None => None
  end.

Global Instance Endpoint_eq_dec : EqDecision Endpoint.
Proof. solve_decision. Defined.

(** A GET request for [path] that goes to [endpoint], whose template is
    a literal followed by one parameter: the endpoint is called with the
    second segment of the path as the value of the parameter. There is
    no such call when the path goes elsewhere or nowhere. *)
Definition routed_by_name {R : Type} (endpoint : Endpoint) (call : string → R)
                          (path : string) : option R :=
  match match_route GET path, path_segments path with
  | Some found, Some [_; name] =>
      if decide (found = endpoint) then Some (call name) else None
  | _, _ => None
  end.


(** What a client receives for a request that no route matches. *)
Definition not_found_reply : Cli.HttpReply :=
  {| Cli.status_code := 404;
     Cli.json_body := Some (JObj [("detail", JStr "Not Found")]) |}.

Section Application.
Context {Plan PlanModel Device DeviceModel : Type}.
Context (from_plan : Plan → PlanModel) (from_device : Device → DeviceModel).
Context {W : Type} `{!WorkerAPI.Worker W}.
(** [WorkerTask.of_worker], from [.model], reads the worker. *)
Context (of_worker : W → WorkerTask).

(** *** The endpoints not yet given *)

(** [GET /plans]. The values of the catalogue come in the map's own
    order: a [dict] yields them in insertion order, which the catalogue
    as a finite map does not record. *)
Definition get_plans : M (Env Plan Device W) (PlanResponse PlanModel) :=
  ctx ← gets (λ e, context (handler e));
  mret {| pr_plans := from_plan <$> (map_to_list (plans ctx)).*2 |}.

(** [GET /devices] *)
Definition get_devices : M (Env Plan Device W) (DeviceResponse DeviceModel) :=
  ctx ← gets (λ e, context (handler e));
  mret {| dr_devices := from_device <$> (map_to_list (devices ctx)).*2 |}.

(** [GET /worker/task] *)
Definition get_active_task : M (Env Plan Device W) WorkerTask :=
  gets (λ e, of_worker (worker (handler e))).

(** [@app.get("/plans", response_model=PlanResponse)] *)
Definition GET_plans := serve HTTP_200_OK get_plans.
(** [@app.get("/devices", response_model=DeviceResponse)] *)
Definition GET_devices := serve HTTP_200_OK get_devices.
(** [@app.get("/worker/task")] *)
Definition GET_worker_task := serve HTTP_200_OK get_active_task.

(** *** The middleware *)

Definition with_header {A} (key value : string) (r : HttpResponse A) : HttpResponse A :=
  {| http_status := http_status r;
     http_headers := <[key := value]> (http_headers r);
     http_body := http_body r |}.

(** [add_api_version_header(request, call_next)] *)
Definition add_api_version_header {S R A} (request : R)
    (call_next : R → M S (HttpResponse A)) : M S (HttpResponse A) :=
  response ← call_next request;
  mret (with_header "X-API-Version" REST_API_VERSION response).

(** What the middleware calls: the route with the exception handler for
    [HTTPException] around its endpoint. An exception of another class is
    not handled here and goes up through the middleware. The state is the
    handler and the record of calls made on the worker. *)
Definition call_route {A} (declared : Z) (endpoint : M (Env Plan Device W) A)
    (_ : unit) : M (Handler Plan Device W * list WorkerCall) (HttpResponse A) :=
  Run (λ s,
    match run endpoint {| handler := s.1; response := fresh_response; calls := s.2 |} with
    | (Return a, e) =>
        (Return {| http_status := default declared (status_code (response e));
                   http_headers := headers (response e);
                   http_body := Content a |}, (handler e, calls e))
    | (Raise (HTTPException code detail), e) =>
        (Return (refusal code detail), (handler e, calls e))
    | (Raise err, e) => (Raise err, (handler e, calls e))
    end).

(** One request through the whole application: the middleware around the
    route, and around both the server's answer to an exception that
    nothing handled. *)
Definition application {A} (declared : Z) (endpoint : M (Env Plan Device W) A)
    (h : Handler Plan Device W)
  : HttpResponse A * Handler Plan Device W * list WorkerCall :=
  match run (add_api_version_header () (call_route declared endpoint)) (h, []) with
  | (Return r, s) => (r, s.1, s.2)
  | (Raise err, s) =>
      ({| http_status := HTTP_500_INTERNAL_SERVER_ERROR; http_headers := ∅;
          http_body := InternalServerError err |}, s.1, s.2)
  end.

(** *** Requests in sequence *)

(** A request, once routed and its path and body decoded. *)
Inductive ApiRequest : Type :=
| GetPlans
| GetPlanByName (name : string)
| GetDevices
| GetDeviceByName (name : string)
| SubmitTask (request : Request) (task : RunPlan)
| UpdateTask (task : WorkerTask)
| GetTask (id : string)
| GetActiveTask
| GetState
| SetState (state_change_request : StateChangeRequest).

(** The status of an answer, the handler it leaves and the calls it made
    on the worker. *)
Definition outcome_of {A} (x : HttpResponse A * Handler Plan Device W * list WorkerCall)
  : Z * Handler Plan Device W * list WorkerCall :=
  (http_status x.1.1, x.1.2, x.2).

Definition handle (r : ApiRequest) (h : Handler Plan Device W)
  : Z * Handler Plan Device W * list WorkerCall :=
  match r with
  | GetPlans => outcome_of (GET_plans h)
  | GetPlanByName name => outcome_of (GET_plans_name from_plan name h)
  | GetDevices => outcome_of (GET_devices h)
  | GetDeviceByName name => outcome_of (GET_devices_name from_device name h)
  | SubmitTask request task => outcome_of (POST_tasks request task h)
  | UpdateTask task => outcome_of (PUT_worker_task task h)
  | GetTask id => outcome_of (GET_tasks_id id h)
  | GetActiveTask => outcome_of (GET_worker_task h)
  | GetState => outcome_of (GET_worker_state h)
  | SetState req => outcome_of (PUT_worker_state req h)
  end.

(** Requests served one after the other: the statuses answered, the
    handler left at the end and all calls made on the worker, in order. *)
Fixpoint handle_all (rs : list ApiRequest) (h : Handler Plan Device W)
  : list Z * Handler Plan Device W * list WorkerCall :=
  match rs with
  | [] => ([], h, [])
  | r :: rest =>
      let '(status, h', made) := handle r h in
      let '(statuses, h'', made') := handle_all rest h' in
      (status :: statuses, h'', made ++ made')
  end.

(** What a recorded call does to the worker. *)
Definition replay_call (c : WorkerCall) (w : W) : W :=
  match c with
  | Called_submit_task task => (WorkerAPI.submit_task task w).2
  | Called_begin_task id =>
      match WorkerAPI.begin_task id w with
      | inr w' => w'
      | inl _ => w
      end
  | Called_pause d => WorkerAPI.pause d w
  | Called_resume => WorkerAPI.resume w
  end.

Definition replay (made : list WorkerCall) (w : W) : W :=
  foldl (λ w c, replay_call c w) w made.

(** The requests that only read. *)
Definition is_read (r : ApiRequest) : bool :=
  match r with
  | SubmitTask _ _ | UpdateTask _ | SetState _ => false
  | _ => true
  end.

End Application.

End App.

(** ** Networks and requests to run the statements on *)

Module Fixtures.

(** A server that answers every request as one that no route matches. *)
Definition answering_not_found : Cli.World → Cli.HttpRequest → outcome Cli.HttpReply :=
  λ _ _, Return App.not_found_reply.

(** A server that answers the request with a body, the one that creates
    the task, and cannot be reached afterwards. *)
Definition lost_after_create : Cli.World → Cli.HttpRequest → outcome Cli.HttpReply :=
  λ _ request,
    match Cli.payload request with
    | Some _ => Return {| Cli.status_code := 200;
                          Cli.json_body := Some (JObj [("taskId", JStr "t1")]) |}
    | None => Raise ConnectionError
    end.

(** A server whose answers are not JSON. *)
Definition answering_text : Cli.World → Cli.HttpRequest → outcome Cli.HttpReply :=
  λ _ _, Return {| Cli.status_code := 502; Cli.json_body := None |}.

(** A request for a state no caller may ask for. *)
Definition idle_request : Service.StateChangeRequest :=
  {| Service.new_state := IDLE; Service.defer := None |}.

(** The identifier of the active task, as [WorkerTask.of_worker] would
    report it. *)
Definition of_sim_worker (w : TestDouble.SimWorker) : Service.WorkerTask :=
  {| Service.task_id := tt_task_id <$> TestDouble.sim_get_active_task w |}.

(** A worker that refuses to begin a task it does not hold: the
    interface leaves open what [begin_task] does with an identifier that
    was never submitted, and this worker raises [KeyError] on it. In
    everything else it is the test double. *)
Record StrictWorker : Type := { lenient : TestDouble.SimWorker }.

Definition strict_begin_task (id : string) (w : StrictWorker) : exn + StrictWorker :=
  match TestDouble.registry (lenient w) !! id with
  | None => inl (KeyError id)
  | Some _ =>
      match TestDouble.sim_begin_task id (lenient w) with
      | inr w' => inr {| lenient := w' |}
      | inl e => inl e
      end
  end.

Global Instance strict_worker : WorkerAPI.Worker StrictWorker :=
  {| WorkerAPI.state := λ w, TestDouble.cell (lenient w);
     WorkerAPI.get_active_task := λ w, TestDouble.sim_get_active_task (lenient w);
     WorkerAPI.get_pending_task := λ id w, TestDouble.registry (lenient w) !! id;
     WorkerAPI.submit_task := λ task w,
       ((TestDouble.sim_submit_task task (lenient w)).1,
        {| lenient := (TestDouble.sim_submit_task task (lenient w)).2 |});
     WorkerAPI.begin_task := strict_begin_task;
     WorkerAPI.pause := λ d w, {| lenient := TestDouble.sim_pause d (lenient w) |};
     WorkerAPI.resume := λ w, {| lenient := TestDouble.sim_resume (lenient w) |} |}.

(** A handler on a strict worker that is idle and holds no task. *)
Definition strict_handler : Service.Handler string string StrictWorker :=
  {| Service.context :=
       {| Service.plans := {[ "my-plan" := "my-plan" ]};
          Service.devices := {[ "my-device" := "my-device" ]} |};
     Service.worker := {| lenient := TestDouble.idle_worker true |} |}.

End Fixtures.

(** * The contract of the control surface *)

(** ** The allowed-transition table *)

Module Table.
Import Service.

Lemma lookup_RUNNING : _ALLOWED_TRANSITIONS !! RUNNING = Some {[PAUSED]}.
Proof. unfold _ALLOWED_TRANSITIONS. by rewrite lookup_insert_eq. Qed.

Lemma lookup_PAUSED : _ALLOWED_TRANSITIONS !! PAUSED = Some {[RUNNING]}.
Proof.
  unfold _ALLOWED_TRANSITIONS.
  rewrite lookup_insert_ne by done. by rewrite lookup_insert_eq.
Qed.

Lemma lookup_IDLE : _ALLOWED_TRANSITIONS !! IDLE = None.
Proof.
  unfold _ALLOWED_TRANSITIONS.
  rewrite !lookup_insert_ne by done. apply lookup_empty.
Qed.

Lemma in_table_cases c n :
  in_table c n ↔ (c = RUNNING ∧ n = PAUSED) ∨ (c = PAUSED ∧ n = RUNNING).
Proof.
  unfold in_table. split.
  - intros (targets & Hl & Hin). destruct c.
    + rewrite lookup_IDLE in Hl. discriminate.
    + rewrite lookup_RUNNING in Hl. injection Hl as <-.
      left. split; [done | set_solver].
    + rewrite lookup_PAUSED in Hl. injection Hl as <-.
      right. split; [done | set_solver].
  - intros [[-> ->] | [-> ->]].
    + exists {[PAUSED]}. split; [apply lookup_RUNNING | set_solver].
    + exists {[RUNNING]}. split; [apply lookup_PAUSED | set_solver].
Qed.

Lemma transition_allowed_in_table c n :
  transition_allowed c n = true ↔ in_table c n.
Proof.
  unfold transition_allowed, in_table. split.
  - destruct (_ALLOWED_TRANSITIONS !! c) as [targets|] eqn:Hl; [|discriminate].
    intros Hb. apply bool_decide_eq_true in Hb. eauto.
  - intros (targets & -> & Hin). by apply bool_decide_eq_true.
Qed.

Lemma transition_refused c n :
  ¬ in_table c n → transition_allowed c n = false.
Proof.
  intros Hn. destruct (transition_allowed c n) eqn:Hb; [|done].
  by apply transition_allowed_in_table in Hb.
Qed.

Lemma idle_not_in_table n : ¬ in_table IDLE n.
Proof. rewrite in_table_cases. by intros [[? _] | [? _]]. Qed.

End Table.

(** ** Running an endpoint *)

Ltac run_endpoint :=
  unfold Service.serve, Service.set_state, Service.get_state, Service.update_task,
    Service.submit_task, Service.get_task, Service.get_plan_by_name,
    Service.get_device_by_name, Service.worker_state, Service.worker_get_active_task,
    Service.worker_get_pending_task, Service.worker_submit_task,
    Service.worker_begin_task, Service.worker_pause, Service.worker_resume,
    Service.set_status_code, Service.set_header, Service.with_worker,
    Service.with_response, Service.fresh_response,
    mbind, M_bind, mret, M_ret, Py.bind, Py.ret, Py.raise, Py.gets, Py.modify,
    Py.try_except;
  cbn.

Section ServiceContract.
Import Service Table.
Context {Plan PlanModel Device DeviceModel : Type}.
Context (from_plan : Plan → PlanModel) (from_device : Device → DeviceModel).
Context {W : Type} `{!WorkerAPI.Worker W}.

Implicit Types (h : Handler Plan Device W).

(** *** PUT /worker/state *)

Lemma set_state_refused_run h req :
  transition_allowed (WorkerAPI.state (worker h)) (new_state req) = false →
  PUT_worker_state req h
  = (reply HTTP_400_BAD_REQUEST (WorkerAPI.state (worker h)), h, []).
Proof.
  intros Hno. unfold PUT_worker_state. run_endpoint. rewrite Hno. by cbn.
Qed.

Lemma set_state_pause_run h req :
  WorkerAPI.state (worker h) = RUNNING → new_state req = PAUSED →
  PUT_worker_state req h
  = (reply HTTP_202_ACCEPTED (WorkerAPI.state (WorkerAPI.pause (defer req) (worker h))),
     replace_worker h (WorkerAPI.pause (defer req) (worker h)),
     [Called_pause (defer req)]).
Proof.
  intros Hc Hn. unfold PUT_worker_state. run_endpoint. rewrite Hc, Hn. by cbn.
Qed.

Lemma set_state_resume_run h req :
  WorkerAPI.state (worker h) = PAUSED → new_state req = RUNNING →
  PUT_worker_state req h
  = (reply HTTP_202_ACCEPTED (WorkerAPI.state (WorkerAPI.resume (worker h))),
     replace_worker h (WorkerAPI.resume (worker h)),
     [Called_resume]).
Proof.
  intros Hc Hn. unfold PUT_worker_state. run_endpoint. rewrite Hc, Hn. by cbn.
Qed.

(** C1. A request whose (current state, requested state) pair is not in
    the allowed-transition table is answered 400 with the current state;
    the handler, and with it the worker and its state, is left exactly
    as it was, and no call at all is made on the worker, so neither
    pause nor resume is invoked. Every request made while the worker is
    IDLE is such a request. *)
Theorem set_state_rejects_outside_table h req :
  ¬ in_table (WorkerAPI.state (worker h)) (new_state req)
  ∨ WorkerAPI.state (worker h) = IDLE →
  PUT_worker_state req h
  = (reply HTTP_400_BAD_REQUEST (WorkerAPI.state (worker h)), h, []).
Proof.
  intros Hout. apply set_state_refused_run, transition_refused.
  destruct Hout as [Hno | Hidle]; [done|].
  rewrite Hidle. apply idle_not_in_table.
Qed.

(** C2. A request whose pair is in the table is answered 202 and makes
    exactly one call on the worker: [pause] with the request's own
    [defer] when the requested state is PAUSED, [resume] when it is
    RUNNING; and these are the only two requested states the table
    admits. *)
Theorem set_state_accepts_in_table h req :
  in_table (WorkerAPI.state (worker h)) (new_state req) →
  (new_state req = PAUSED ∨ new_state req = RUNNING)
  ∧ (new_state req = PAUSED →
     PUT_worker_state req h
     = (reply HTTP_202_ACCEPTED
          (WorkerAPI.state (WorkerAPI.pause (defer req) (worker h))),
        replace_worker h (WorkerAPI.pause (defer req) (worker h)),
        [Called_pause (defer req)]))
  ∧ (new_state req = RUNNING →
     PUT_worker_state req h
     = (reply HTTP_202_ACCEPTED (WorkerAPI.state (WorkerAPI.resume (worker h))),
        replace_worker h (WorkerAPI.resume (worker h)),
        [Called_resume])).
Proof.
  intros Hin. apply in_table_cases in Hin as [[Hc Hn] | [Hc Hn]].
  - split; [by left|]. split.
    + intros _. by apply set_state_pause_run.
    + intros Hn'. congruence.
  - split; [by right|]. split.
    + intros Hn'. congruence.
    + intros _. by apply set_state_resume_run.
Qed.

(** The body of every answer of [PUT /worker/state] is the state read
    from the worker the request leaves behind. *)
Lemma set_state_body_is_state_after h req :
  http_body (PUT_worker_state req h).1.1
  = Content (WorkerAPI.state (worker (PUT_worker_state req h).1.2)).
Proof.
  destruct (transition_allowed (WorkerAPI.state (worker h)) (new_state req)) eqn:Hb.
  - apply transition_allowed_in_table, in_table_cases in Hb.
    destruct Hb as [[Hc Hn] | [Hc Hn]].
    + by rewrite (set_state_pause_run h req Hc Hn).
    + by rewrite (set_state_resume_run h req Hc Hn).
  - by rewrite (set_state_refused_run h req Hb).
Qed.

(** C8. [GET /worker/state] answers 200 with the worker's state, makes
    no call on the worker and leaves the handler as it was; hence a
    second request, with nothing in between, gets the same answer. *)
Theorem get_state_idempotent h :
  GET_worker_state h = (reply HTTP_200_OK (WorkerAPI.state (worker h)), h, [])
  ∧ (GET_worker_state (GET_worker_state h).1.2).1.1 = (GET_worker_state h).1.1
  ∧ (GET_worker_state (GET_worker_state h).1.2).1.2 = h.
Proof.
  assert (GET_worker_state h
          = (reply HTTP_200_OK (WorkerAPI.state (worker h)), h, [])) as Heq.
  { unfold GET_worker_state. by run_endpoint. }
  split; [done|]. rewrite Heq. cbn [fst snd]. by rewrite Heq.
Qed.

(** *** PUT /worker/task *)

Lemma update_task_conflict_run h task :
  active_and_incomplete (WorkerAPI.get_active_task (worker h)) = true →
  PUT_worker_task task h = (refusal HTTP_409_CONFLICT "Worker already active", h, []).
Proof.
  intros Hbusy. unfold PUT_worker_task. run_endpoint. rewrite Hbusy. by cbn.
Qed.

Lemma update_task_null_run h task :
  active_and_incomplete (WorkerAPI.get_active_task (worker h)) = false →
  task_id task = None →
  PUT_worker_task task h = (reply HTTP_200_OK task, h, []).
Proof.
  intros Hfree Hnull. unfold PUT_worker_task. run_endpoint.
  rewrite Hfree, Hnull. by cbn.
Qed.

Lemma update_task_begin_run h task id :
  active_and_incomplete (WorkerAPI.get_active_task (worker h)) = false →
  task_id task = Some id →
  PUT_worker_task task h
  = match WorkerAPI.begin_task id (worker h) with
    | inr w' => (reply HTTP_200_OK task, replace_worker h w', [Called_begin_task id])
    | inl e =>
        ((serve HTTP_200_OK (raise e : M (Env Plan Device W) WorkerTask) h).1.1,
         replace_worker h (worker h), [Called_begin_task id])
    end.
Proof.
  intros Hfree Hid. unfold PUT_worker_task. run_endpoint.
  rewrite Hfree, Hid. cbn.
  destruct (WorkerAPI.begin_task id (worker h)) as [e | w']; cbn; [|done].
  by destruct e.
Qed.

Lemma replace_worker_same h : replace_worker h (worker h) = h.
Proof. by destruct h. Qed.

(** C3. While the worker's active task exists and is not complete,
    [PUT /worker/task] answers 409, makes no call on the worker
    ([begin_task] is not invoked) and leaves the handler as it was.
    Otherwise a request that carries a task identifier makes exactly one
    call on the worker, [begin_task] on that identifier, and the worker
    afterwards is the one [begin_task] produced (the worker as it was,
    if [begin_task] failed). *)
Theorem update_task_conflict_or_begin h task :
  (active_and_incomplete (WorkerAPI.get_active_task (worker h)) = true →
   PUT_worker_task task h
   = (refusal HTTP_409_CONFLICT "Worker already active", h, []))
  ∧ (active_and_incomplete (WorkerAPI.get_active_task (worker h)) = false →
     ∀ id, task_id task = Some id →
     ∃ resp,
       PUT_worker_task task h
       = (resp,
          replace_worker h match WorkerAPI.begin_task id (worker h) with
                           | inr w' => w'
                           | inl _ => worker h
                           end,
          [Called_begin_task id])).
Proof.
  split.
  - apply update_task_conflict_run.
  - intros Hfree id Hid. rewrite (update_task_begin_run h task id Hfree Hid).
    destruct (WorkerAPI.begin_task id (worker h)); eauto.
Qed.

(** C10, as the code has it. Whatever body [PUT /worker/task] returns
    from its endpoint is the request's own [WorkerTask]. When no
    incomplete active task exists: a request that carries an identifier
    is answered 200 with the request echoed back if [begin_task] returns;
    if [begin_task] raises, the endpoint does not handle the exception
    and no [WorkerTask] is returned, the one call on the worker being
    that [begin_task]; and a request whose identifier is null is answered
    200 with the echo, with no call made on the worker and the handler
    left as it was. *)
Theorem update_task_echoes_unless_begin_raises h task :
  (∀ body, http_body (PUT_worker_task task h).1.1 = Content body → body = task)
  ∧ (active_and_incomplete (WorkerAPI.get_active_task (worker h)) = false →
     ∀ id w', task_id task = Some id →
              WorkerAPI.begin_task id (worker h) = inr w' →
              PUT_worker_task task h
              = (reply HTTP_200_OK task, replace_worker h w', [Called_begin_task id]))
  ∧ (active_and_incomplete (WorkerAPI.get_active_task (worker h)) = false →
     ∀ id e, task_id task = Some id →
             WorkerAPI.begin_task id (worker h) = inl e →
             (∀ body, http_body (PUT_worker_task task h).1.1 ≠ Content body)
             ∧ (PUT_worker_task task h).1.2 = h
             ∧ (PUT_worker_task task h).2 = [Called_begin_task id])
  ∧ (active_and_incomplete (WorkerAPI.get_active_task (worker h)) = false →
     task_id task = None →
     PUT_worker_task task h = (reply HTTP_200_OK task, h, [])).
Proof.
  split_and!.
  - intros body.
    destruct (active_and_incomplete (WorkerAPI.get_active_task (worker h))) eqn:Hb.
    { by rewrite (update_task_conflict_run h task Hb). }
    destruct (task_id task) as [id|] eqn:Hid.
    + rewrite (update_task_begin_run h task id Hb Hid).
      destruct (WorkerAPI.begin_task id (worker h)) as [e | w'].
      * by destruct e.
      * cbn. congruence.
    + rewrite (update_task_null_run h task Hb Hid). cbn. congruence.
  - intros Hfree id w' Hid Hbegin.
    by rewrite (update_task_begin_run h task id Hfree Hid), Hbegin.
  - intros Hfree id e Hid Hbegin.
    rewrite (update_task_begin_run h task id Hfree Hid), Hbegin. cbn [fst snd].
    split_and!; [|apply replace_worker_same|done].
    intros body. by destruct e.
  - apply update_task_null_run.
Qed.

(** *** POST /tasks *)

(** C6. [POST /tasks] answers 201; the body carries the identifier the
    worker's [submit_task] generated for this request, and the Location
    header is the request URL followed by a slash and that identifier.
    [submit_task] is the one call made on the worker. *)
Theorem submit_task_created h request task :
  POST_tasks request task h
  = ({| http_status := HTTP_201_CREATED;
        http_headers :=
          {[ "Location" :=
               url request +:+ "/" +:+ (WorkerAPI.submit_task task (worker h)).1 ]};
        http_body :=
          Content {| tr_task_id := (WorkerAPI.submit_task task (worker h)).1 |} |},
     replace_worker h (WorkerAPI.submit_task task (worker h)).2,
     [Called_submit_task task]).
Proof.
  unfold POST_tasks. run_endpoint.
  destruct (WorkerAPI.submit_task task (worker h)) as [id w']. cbn.
  by rewrite insert_empty.
Qed.

(** *** Lookups *)

(** C7. A lookup of an identifier that is not known (a task identifier
    the worker has no task for, a plan or device name that is not a key
    of the catalogue) is answered 404 with the detail "Item not found";
    the handler is left as it was and no call is made on the worker, so
    the server goes on serving. A lookup of a known identifier is
    answered 200 with the record found. *)
Theorem lookups_found_or_404 h :
  (∀ id, WorkerAPI.get_pending_task id (worker h) = None →
         GET_tasks_id id h = (refusal HTTP_404_NOT_FOUND "Item not found", h, []))
  ∧ (∀ id t, WorkerAPI.get_pending_task id (worker h) = Some t →
             GET_tasks_id id h = (reply HTTP_200_OK t, h, []))
  ∧ (∀ name, plans (context h) !! name = None →
             GET_plans_name from_plan name h
             = (refusal HTTP_404_NOT_FOUND "Item not found", h, []))
  ∧ (∀ name plan, plans (context h) !! name = Some plan →
                  GET_plans_name from_plan name h
                  = (reply HTTP_200_OK (from_plan plan), h, []))
  ∧ (∀ name, devices (context h) !! name = None →
             GET_devices_name from_device name h
             = (refusal HTTP_404_NOT_FOUND "Item not found", h, []))
  ∧ (∀ name device, devices (context h) !! name = Some device →
                    GET_devices_name from_device name h
                    = (reply HTTP_200_OK (from_device device), h, [])).
Proof.
  repeat split.
  - intros id Hnone. unfold GET_tasks_id. run_endpoint. by rewrite Hnone.
  - intros id t Hsome. unfold GET_tasks_id. run_endpoint. by rewrite Hsome.
  - intros name Hnone. unfold GET_plans_name. run_endpoint. by rewrite Hnone.
  - intros name plan Hsome. unfold GET_plans_name. run_endpoint. by rewrite Hsome.
  - intros name Hnone. unfold GET_devices_name. run_endpoint. by rewrite Hnone.
  - intros name device Hsome. unfold GET_devices_name. run_endpoint. by rewrite Hsome.
Qed.

End ServiceContract.

(** PUT /worker/state on a concrete worker: the engine behind the test
    double either has, or has not yet, reported the pause when the
    endpoint reads the state back. *)
Section PauseRequest.
Import Service TestDouble.

Lemma pause_running_synchronous :
  PUT_worker_state pause_request (handler_with (running_worker true))
  = (reply HTTP_202_ACCEPTED PAUSED,
     handler_with (_on_state_change PAUSED (running_worker true)),
     [Called_pause (Some true)]).
Proof. reflexivity. Qed.

Lemma pause_running_not_yet_reported :
  PUT_worker_state pause_request (handler_with (running_worker false))
  = (reply HTTP_202_ACCEPTED RUNNING,
     handler_with (running_worker false),
     [Called_pause (Some true)]).
Proof. reflexivity. Qed.

End PauseRequest.

(** C4. The body of every answer of [PUT /worker/state], accepted or
    rejected, is the worker's state read after the attempt. When the
    request is accepted the attempt is made: the state is read from the
    worker that [pause], called with the request's [defer], or [resume]
    has left. When the request is rejected it is read from the worker as
    it was, and is the unchanged current state. And an accepted request
    can be answered with the old state: on a worker whose engine has not
    yet reported the pause, a pause request made while RUNNING is
    answered 202 with RUNNING. *)
Theorem set_state_answers_state_after :
  (∀ (Plan Device W : Type) (worker_impl : WorkerAPI.Worker W)
     (h : Service.Handler Plan Device W) (req : Service.StateChangeRequest),
     Service.http_body (Service.PUT_worker_state req h).1.1
     = Service.Content
         (WorkerAPI.state (Service.worker (Service.PUT_worker_state req h).1.2))
     ∧ (Service.in_table (WorkerAPI.state (Service.worker h)) (Service.new_state req) →
        Service.new_state req = PAUSED →
        (Service.PUT_worker_state req h).1.2
        = Service.replace_worker h
            (WorkerAPI.pause (Service.defer req) (Service.worker h))
        ∧ Service.http_body (Service.PUT_worker_state req h).1.1
          = Service.Content
              (WorkerAPI.state
                 (WorkerAPI.pause (Service.defer req) (Service.worker h))))
     ∧ (Service.in_table (WorkerAPI.state (Service.worker h)) (Service.new_state req) →
        Service.new_state req = RUNNING →
        (Service.PUT_worker_state req h).1.2
        = Service.replace_worker h (WorkerAPI.resume (Service.worker h))
        ∧ Service.http_body (Service.PUT_worker_state req h).1.1
          = Service.Content (WorkerAPI.state (WorkerAPI.resume (Service.worker h))))
     ∧ (¬ Service.in_table (WorkerAPI.state (Service.worker h)) (Service.new_state req) →
        (Service.PUT_worker_state req h).1.2 = h
        ∧ Service.http_body (Service.PUT_worker_state req h).1.1
          = Service.Content (WorkerAPI.state (Service.worker h))))
  ∧ (∃ (h : Service.Handler string string TestDouble.SimWorker)
       (req : Service.StateChangeRequest),
       Service.in_table (WorkerAPI.state (Service.worker h)) (Service.new_state req)
       ∧ Service.http_status (Service.PUT_worker_state req h).1.1
         = Service.HTTP_202_ACCEPTED
       ∧ Service.http_body (Service.PUT_worker_state req h).1.1
         = Service.Content (WorkerAPI.state (Service.worker h))).
Proof.
  split.
  - intros Plan Device W worker_impl h req. split_and!.
    + apply set_state_body_is_state_after.
    + intros Hin Hn. apply Table.in_table_cases in Hin as [[Hc _] | [_ Hn']];
        [|congruence].
      by rewrite (set_state_pause_run h req Hc Hn).
    + intros Hin Hn. apply Table.in_table_cases in Hin as [[_ Hn'] | [Hc _]];
        [congruence|].
      by rewrite (set_state_resume_run h req Hc Hn).
    + intros Hout.
      by rewrite (set_state_refused_run h req (Table.transition_refused _ _ Hout)).
  - exists (TestDouble.handler_with (TestDouble.running_worker false)),
      TestDouble.pause_request.
    split; [|by rewrite pause_running_not_yet_reported].
    apply Table.in_table_cases. by left.
Qed.

(** ** The command-line client *)

Ltac run_command :=
  unfold Cli.controller_plans, Cli.controller_devices, Cli.controller_run,
    Cli.check_connection, Cli.get_plans, Cli.get_devices, Cli.run_plan,
    Cli.requests_get, Cli.requests_put, Cli.requests_send, Cli.reply_json,
    Cli.print, Cli.pprint, Cli.emit, Cli.lift,
    mbind, M_bind, mret, M_ret, Py.bind, Py.ret, Py.raise, Py.gets, Py.modify,
    Py.try_except, Py.finally;
  cbn.

Section CliContract.
Import Cli.
Context (network : World → HttpRequest → outcome HttpReply).
Context (json_loads : string → outcome json).
Context (py_repr : json → string).

Lemma check_connection_run {A} (func : M World A) (w : World) :
  run (check_connection func) w = checked (run func w).
Proof.
  run_command. destruct (run func w) as [[a | e] w']; cbn; [done|].
  by destruct e.
Qed.

Lemma run_plan_success_run config name parameters id w
      params created_reply created task started_reply :
  json_loads parameters = Return params →
  network (w ++ [AmqEnter]) (create_request config name params)
  = Return created_reply →
  json_body created_reply = Some created →
  getitem created "taskId" = Return task →
  network (w ++ [AmqEnter; Http (create_request config name params);
                 AmqSubscribeToTopics task])
          (begin_request py_repr config task)
  = Return started_reply →
  run (run_plan network json_loads py_repr config name parameters id) w
  = (Return (),
     w ++ [AmqEnter;
           Http (create_request config name params);
           AmqSubscribeToTopics task;
           Http (begin_request py_repr config task);
           Print ("Response returned with " +:+ pretty (status_code started_reply));
           AmqWaitForComplete;
           AmqExit]).
Proof.
  intros Hloads Hcreate Hbody Htask Hbegin. run_command.
  rewrite Hloads. cbn. unfold create_request in Hcreate, Hbegin.
  rewrite Hcreate. cbn. rewrite Hbody. cbn. rewrite Htask. cbn.
  unfold begin_request in Hbegin.
  rewrite <- !app_assoc. cbn. rewrite Hbegin. cbn.
  by rewrite <- !app_assoc.
Qed.

Lemma run_plan_subscribes_first config name parameters id :
  begin_follows_subscribe false
    (run (run_plan network json_loads py_repr config name parameters id) []).2 = true.
Proof.
  run_command.
  destruct (json_loads parameters) as [params | e]; cbn; [|done].
  match goal with |- context [network ?w ?r] => destruct (network w r) as [r1 | e] end;
    cbn; [|done].
  destruct (json_body r1) as [created |]; cbn; [|done].
  destruct (getitem created "taskId") as [task | e]; cbn; [|done].
  match goal with |- context [network ?w ?r] => destruct (network w r) as [r2 | e] end;
    by cbn.
Qed.

Lemma unreachable_plans config w :
  (∀ w' r, network w' r = Raise ConnectionError) →
  run (controller_plans network config) w
  = (Return (),
     w ++ [Http {| method := GET; target := base_url config +:+ "/plans";
                   payload := None |};
           Print connection_failure_message]).
Proof.
  intros Hdown. run_command. rewrite Hdown. cbn. by rewrite <- app_assoc.
Qed.

Lemma unreachable_devices config w :
  (∀ w' r, network w' r = Raise ConnectionError) →
  run (controller_devices network config) w
  = (Return (),
     w ++ [Http {| method := GET; target := base_url config +:+ "/devices";
                   payload := None |};
           Print connection_failure_message]).
Proof.
  intros Hdown. run_command. rewrite Hdown. cbn. by rewrite <- app_assoc.
Qed.

Lemma unreachable_run config name parameters id params w :
  (∀ w' r, network w' r = Raise ConnectionError) →
  json_loads parameters = Return params →
  run (controller_run network json_loads py_repr config name parameters id) w
  = (Return (),
     w ++ [AmqEnter; Http (create_request config name params); AmqExit;
           Print connection_failure_message]).
Proof.
  intros Hdown Hloads. run_command. rewrite Hloads. cbn. rewrite Hdown. cbn.
  by rewrite <- !app_assoc.
Qed.

(** C5, as the code has it. When every step goes through, [run_plan]
    enters the AMQ client, sends the request that creates the task,
    subscribes to the topics of the identifier it got back, sends the
    request that signals begin, prints the status code of the answer to
    that request, blocks until the AMQ client reports completion, and
    leaves the AMQ client, in this order; nothing is printed after the
    wait. And whatever the server, [json.loads] and the network do, no
    run signals begin without having subscribed before. *)
Theorem run_plan_order config name parameters id :
  begin_follows_subscribe false
    (run (run_plan network json_loads py_repr config name parameters id) []).2 = true
  ∧ ∀ w params created_reply created task started_reply,
      json_loads parameters = Return params →
      network (w ++ [AmqEnter]) (create_request config name params)
      = Return created_reply →
      json_body created_reply = Some created →
      getitem created "taskId" = Return task →
      network (w ++ [AmqEnter; Http (create_request config name params);
                     AmqSubscribeToTopics task])
              (begin_request py_repr config task)
      = Return started_reply →
      run (run_plan network json_loads py_repr config name parameters id) w
      = (Return (),
         w ++ [AmqEnter;
               Http (create_request config name params);
               AmqSubscribeToTopics task;
               Http (begin_request py_repr config task);
               Print ("Response returned with "
                      +:+ pretty (status_code started_reply));
               AmqWaitForComplete;
               AmqExit]).
Proof.
  split.
  - apply run_plan_subscribes_first.
  - intros. by eapply run_plan_success_run.
Qed.

(** C9. [check_connection] runs the function it wraps once, from the
    world it is called in, and never again: its result is [checked] of
    that one run. A [ConnectionError] raised by the function does not
    reach the caller; the wrapper returns normally after printing one
    line to the user. So when the server cannot be reached, each
    controller command sends the one request it would have sent first,
    prints that line, and returns. *)
Theorem check_connection_reports_once :
  (∀ (A : Type) (func : M World A) (w : World),
     run (check_connection func) w = checked (run func w))
  ∧ (∀ (A : Type) (func : M World A) (w w' : World),
       run func w = (Raise ConnectionError, w') →
       run (check_connection func) w
       = (Return (), w' ++ [Print connection_failure_message]))
  ∧ ((∀ w r, network w r = Raise ConnectionError) →
     ∀ config w,
       run (controller_plans network config) w
       = (Return (),
          w ++ [Http {| method := GET; target := base_url config +:+ "/plans";
                        payload := None |};
                Print connection_failure_message])
       ∧ run (controller_devices network config) w
         = (Return (),
            w ++ [Http {| method := GET; target := base_url config +:+ "/devices";
                          payload := None |};
                  Print connection_failure_message])
       ∧ ∀ name parameters id params,
           json_loads parameters = Return params →
           run (controller_run network json_loads py_repr config name parameters id) w
           = (Return (),
              w ++ [AmqEnter; Http (create_request config name params); AmqExit;
                    Print connection_failure_message])).
Proof.
  split; [|split].
  - intros. apply check_connection_run.
  - intros A func w w' Hfail. by rewrite check_connection_run, Hfail.
  - intros Hdown config w. split; [|split].
    + by apply unreachable_plans.
    + by apply unreachable_devices.
    + intros. by apply unreachable_run.
Qed.

End CliContract.

(** ** The statements at work on the test double *)

Section OnTheTestDouble.
Import Service TestDouble.

Lemma set_state_rejects_outside_table_witness :
  PUT_worker_state resume_request (handler_with (idle_worker true))
  = (reply HTTP_400_BAD_REQUEST IDLE, handler_with (idle_worker true), [])
  ∧ PUT_worker_state resume_request (handler_with (running_worker true))
    = (reply HTTP_400_BAD_REQUEST RUNNING, handler_with (running_worker true), []).
Proof.
  split.
  - exact (set_state_rejects_outside_table
             (handler_with (idle_worker true)) resume_request
             (or_intror eq_refl)).
  - assert (¬ in_table RUNNING RUNNING) as Hout.
    { intros Hin. apply Table.in_table_cases in Hin.
      destruct Hin as [[_ Hn] | [Hc _]]; discriminate. }
    exact (set_state_rejects_outside_table
             (handler_with (running_worker true)) resume_request
             (or_introl Hout)).
Defined.

Lemma set_state_accepts_in_table_witness :
  PUT_worker_state pause_request (handler_with (running_worker true))
  = (reply HTTP_202_ACCEPTED PAUSED,
     handler_with (paused_worker true),
     [Called_pause (Some true)])
  ∧ PUT_worker_state resume_request (handler_with (paused_worker true))
    = (reply HTTP_202_ACCEPTED RUNNING,
       handler_with (running_worker true),
       [Called_resume]).
Proof.
  split.
  - assert (in_table RUNNING PAUSED) as Hin.
    { apply Table.in_table_cases. left. split; reflexivity. }
    exact (proj1 (proj2 (set_state_accepts_in_table
                           (handler_with (running_worker true)) pause_request Hin))
                 eq_refl).
  - assert (in_table PAUSED RUNNING) as Hin.
    { apply Table.in_table_cases. right. split; reflexivity. }
    exact (proj2 (proj2 (set_state_accepts_in_table
                           (handler_with (paused_worker true)) resume_request Hin))
                 eq_refl).
Defined.

Lemma update_task_conflict_or_begin_witness :
  PUT_worker_task {| task_id := Some "task-0" |} (handler_with (running_worker true))
  = (refusal HTTP_409_CONFLICT "Worker already active",
     handler_with (running_worker true), [])
  ∧ ∃ resp,
      PUT_worker_task {| task_id := Some "task-0" |}
                      (handler_with (submitted_worker true))
      = (resp,
         replace_worker (handler_with (submitted_worker true))
           match WorkerAPI.begin_task "task-0" (submitted_worker true) with
           | inr w' => w'
           | inl _ => submitted_worker true
           end,
         [Called_begin_task "task-0"]).
Proof.
  split.
  - exact (proj1 (update_task_conflict_or_begin
                    (handler_with (running_worker true))
                    {| task_id := Some "task-0" |})
                 eq_refl).
  - exact (proj2 (update_task_conflict_or_begin
                    (handler_with (submitted_worker true))
                    {| task_id := Some "task-0" |})
                 eq_refl "task-0" eq_refl).
Defined.

(** C10, as worded, fails: on a worker with no active task that refuses
    the identifier, the request is not rejected with 409, and the answer
    is the 500 of an exception nothing handled, not the request echoed
    back. *)
Lemma update_task_begin_failure_is_not_echoed :
  let task := {| task_id := Some "task-9" |} in
  let answer := (PUT_worker_task task Fixtures.strict_handler).1.1 in
  http_status answer = HTTP_500_INTERNAL_SERVER_ERROR
  ∧ http_body answer = InternalServerError (KeyError "task-9")
  ∧ ¬ (http_status answer ≠ HTTP_409_CONFLICT → http_body answer = Content task).
Proof.
  cbn zeta. split_and!; [reflexivity|reflexivity|].
  intros Hecho.
  assert (http_body (PUT_worker_task {| task_id := Some "task-9" |}
                       Fixtures.strict_handler).1.1
          = Content {| task_id := Some "task-9" |}) as Hbody.
  { apply Hecho. discriminate. }
  discriminate Hbody.
Qed.

Lemma update_task_echoes_unless_begin_raises_witness :
  PUT_worker_task {| task_id := Some "task-0" |} (handler_with (submitted_worker true))
  = (reply HTTP_200_OK {| task_id := Some "task-0" |},
     replace_worker (handler_with (submitted_worker true))
       {| cell := IDLE; registry := registry (submitted_worker true);
          active := Some "task-0"; synchronous := true |},
     [Called_begin_task "task-0"])
  ∧ ((∀ body, http_body (PUT_worker_task {| task_id := Some "task-9" |}
                           Fixtures.strict_handler).1.1 ≠ Content body)
     ∧ (PUT_worker_task {| task_id := Some "task-9" |} Fixtures.strict_handler).1.2
       = Fixtures.strict_handler
     ∧ (PUT_worker_task {| task_id := Some "task-9" |} Fixtures.strict_handler).2
       = [Called_begin_task "task-9"])
  ∧ PUT_worker_task {| task_id := None |} (handler_with (idle_worker true))
    = (reply HTTP_200_OK {| task_id := None |}, handler_with (idle_worker true), []).
Proof.
  split_and!.
  - exact (proj1 (proj2 (update_task_echoes_unless_begin_raises
                           (handler_with (submitted_worker true))
                           {| task_id := Some "task-0" |}))
                 eq_refl "task-0" _ eq_refl eq_refl).
  - exact (proj1 (proj1 (proj2 (proj2 (update_task_echoes_unless_begin_raises
                                         Fixtures.strict_handler
                                         {| task_id := Some "task-9" |})))
                        eq_refl "task-9" (KeyError "task-9") eq_refl eq_refl)).
  - exact (proj1 (proj2 (proj1 (proj2 (proj2 (update_task_echoes_unless_begin_raises
                                                Fixtures.strict_handler
                                                {| task_id := Some "task-9" |})))
                               eq_refl "task-9" (KeyError "task-9") eq_refl eq_refl))).
  - exact (proj2 (proj2 (proj1 (proj2 (proj2 (update_task_echoes_unless_begin_raises
                                                Fixtures.strict_handler
                                                {| task_id := Some "task-9" |})))
                               eq_refl "task-9" (KeyError "task-9") eq_refl eq_refl))).
  - exact (proj2 (proj2 (proj2 (update_task_echoes_unless_begin_raises
                                  (handler_with (idle_worker true))
                                  {| task_id := None |})))
                 eq_refl eq_refl).
Defined.

Lemma set_state_answers_state_after_witness :
  ((PUT_worker_state pause_request (handler_with (running_worker true))).1.2
   = handler_with (paused_worker true)
   ∧ http_body (PUT_worker_state pause_request (handler_with (running_worker true))).1.1
     = Content PAUSED)
  ∧ ((PUT_worker_state resume_request (handler_with (paused_worker true))).1.2
     = handler_with (running_worker true)
     ∧ http_body (PUT_worker_state resume_request (handler_with (paused_worker true))).1.1
       = Content RUNNING)
  ∧ ((PUT_worker_state resume_request (handler_with (idle_worker true))).1.2
     = handler_with (idle_worker true)
     ∧ http_body (PUT_worker_state resume_request (handler_with (idle_worker true))).1.1
       = Content IDLE).
Proof.
  assert (in_table RUNNING PAUSED) as Hpause.
  { apply Table.in_table_cases. left. split; reflexivity. }
  assert (in_table PAUSED RUNNING) as Hresume.
  { apply Table.in_table_cases. right. split; reflexivity. }
  pose proof (proj1 set_state_answers_state_after string string SimWorker sim_worker)
    as Hafter.
  split_and!.
  - exact (proj1 (proj1 (proj2 (Hafter (handler_with (running_worker true))
                                  pause_request)) Hpause eq_refl)).
  - exact (proj2 (proj1 (proj2 (Hafter (handler_with (running_worker true))
                                  pause_request)) Hpause eq_refl)).
  - exact (proj1 (proj1 (proj2 (proj2 (Hafter (handler_with (paused_worker true))
                                         resume_request))) Hresume eq_refl)).
  - exact (proj2 (proj1 (proj2 (proj2 (Hafter (handler_with (paused_worker true))
                                         resume_request))) Hresume eq_refl)).
  - exact (proj1 (proj2 (proj2 (proj2 (Hafter (handler_with (idle_worker true))
                                         resume_request)))
                        (Table.idle_not_in_table RUNNING))).
  - exact (proj2 (proj2 (proj2 (proj2 (Hafter (handler_with (idle_worker true))
                                         resume_request)))
                        (Table.idle_not_in_table RUNNING))).
Defined.

Lemma lookups_found_or_404_witness :
  GET_tasks_id "task-9" (handler_with (submitted_worker true))
  = (refusal HTTP_404_NOT_FOUND "Item not found",
     handler_with (submitted_worker true), [])
  ∧ GET_tasks_id "task-0" (handler_with (submitted_worker true))
    = (reply HTTP_200_OK
         {| tt_task_id := "task-0"; tt_task := _TASK;
            is_complete := false; errors := [] |},
       handler_with (submitted_worker true), [])
  ∧ GET_plans_name id "no-plan" (handler_with (idle_worker true))
    = (refusal HTTP_404_NOT_FOUND "Item not found", handler_with (idle_worker true), [])
  ∧ GET_plans_name id "my-plan" (handler_with (idle_worker true))
    = (reply HTTP_200_OK "my-plan", handler_with (idle_worker true), [])
  ∧ GET_devices_name id "no-device" (handler_with (idle_worker true))
    = (refusal HTTP_404_NOT_FOUND "Item not found", handler_with (idle_worker true), [])
  ∧ GET_devices_name id "my-device" (handler_with (idle_worker true))
    = (reply HTTP_200_OK "my-device", handler_with (idle_worker true), []).
Proof.
  pose proof (lookups_found_or_404 id id (handler_with (submitted_worker true)))
    as (Hunknown & Hknown & _).
  pose proof (lookups_found_or_404 id id (handler_with (idle_worker true)))
    as (_ & _ & Hnoplan & Hplan & Hnodevice & Hdevice).
  split_and!.
  - exact (Hunknown "task-9" eq_refl).
  - exact (Hknown "task-0" _ eq_refl).
  - exact (Hnoplan "no-plan" eq_refl).
  - exact (Hplan "my-plan" "my-plan" eq_refl).
  - exact (Hnodevice "no-device" eq_refl).
  - exact (Hdevice "my-device" "my-device" eq_refl).
Defined.

End OnTheTestDouble.

Section OnTheTestNetwork.
Import Cli TestDouble.

(** The run of [controller run count -p {}] against a server that
    answers, from an empty world. *)
Lemma run_plan_trace :
  run (run_plan answering loads_stub repr_stub config "count" "{}" None) []
  = (Return (),
     [AmqEnter;
      Http {| method := PUT; target := "http://localhost:8000/task";
              payload := Some (JObj [("name", JStr "count"); ("params", JObj [])]) |};
      AmqSubscribeToTopics (JStr "t1");
      Http {| method := PUT; target := "http://localhost:8000/started/t1";
              payload := None |};
      Print "Response returned with 200";
      AmqWaitForComplete;
      AmqExit]).
Proof. reflexivity. Qed.

(** C5, as worded, fails: in the run above the one line [run_plan]
    prints comes before the wait, not after it. *)
Lemma run_plan_prints_before_blocking :
  steps (run (run_plan answering loads_stub repr_stub config "count" "{}" None) []).2
  = [Create; Subscribe; Begin; Printed; Block]
  ∧ ¬ worded_order
        (run (run_plan answering loads_stub repr_stub config "count" "{}" None) []).2.
Proof.
  rewrite run_plan_trace. split; [reflexivity|].
  unfold worded_order. cbn. discriminate.
Qed.

Lemma run_plan_order_witness :
  run (run_plan answering loads_stub repr_stub config "count" "{}" None) []
  = (Return (),
     [AmqEnter;
      Http (create_request config "count" (JObj []));
      AmqSubscribeToTopics (JStr "t1");
      Http (begin_request repr_stub config (JStr "t1"));
      Print ("Response returned with " +:+ pretty 200%Z);
      AmqWaitForComplete;
      AmqExit]).
Proof.
  exact (proj2 (run_plan_order answering loads_stub repr_stub config "count" "{}" None)
               [] (JObj [])
               {| status_code := 200; json_body := Some (JObj [("taskId", JStr "t1")]) |}
               (JObj [("taskId", JStr "t1")]) (JStr "t1")
               {| status_code := 200; json_body := Some (JObj [("taskId", JStr "t1")]) |}
               eq_refl eq_refl eq_refl eq_refl eq_refl).
Defined.

(** The check of the order tells a run that begins first from one that
    subscribes first. *)
Lemma begin_before_subscribe_is_caught :
  begin_follows_subscribe false
    [Http (begin_request repr_stub config (JStr "t1")); AmqSubscribeToTopics (JStr "t1")]
  = false.
Proof. reflexivity. Qed.

Lemma check_connection_reports_once_witness :
  run (check_connection (raise ConnectionError : M World unit)) []
  = (Return (), [Print connection_failure_message])
  ∧ run (controller_plans unreachable config) []
    = (Return (),
       [Http {| method := GET; target := "http://localhost:8000/plans";
                payload := None |};
        Print "Failed to establish connection to FastAPI server."])
  ∧ run (controller_run unreachable loads_stub repr_stub config "count" "{}" None) []
    = (Return (),
       [AmqEnter; Http (create_request config "count" (JObj [])); AmqExit;
        Print "Failed to establish connection to FastAPI server."]).
Proof.
  pose proof (check_connection_reports_once unreachable loads_stub repr_stub)
    as (_ & Hcaught & Hcommands).
  split_and!.
  - exact (Hcaught unit (raise ConnectionError) [] [] eq_refl).
  - exact (proj1 (Hcommands (λ _ _, eq_refl) config [])).
  - exact (proj2 (proj2 (Hcommands (λ _ _, eq_refl) config []))
                 "count" "{}" None (JObj []) eq_refl).
Defined.

End OnTheTestNetwork.

(** ** The scenarios of the tests, replayed *)

Section Scenarios.
Import Service TestDouble.

(** [test_running_while_idle_denied] *)
Example running_while_idle_denied :
  PUT_worker_state resume_request (handler_with (idle_worker true))
  = (reply HTTP_400_BAD_REQUEST IDLE, handler_with (idle_worker true), []).
Proof. reflexivity. Qed.

(** [test_pausing_while_idle_denied] *)
Example pausing_while_idle_denied :
  PUT_worker_state pause_request (handler_with (idle_worker true))
  = (reply HTTP_400_BAD_REQUEST IDLE, handler_with (idle_worker true), []).
Proof. reflexivity. Qed.

(** [test_pause_and_resume]: the second request is served by the
    handler the first one left. *)
Example pause_and_resume :
  let first := PUT_worker_state pause_request (handler_with (running_worker true)) in
  let second := PUT_worker_state resume_request first.1.2 in
  first.1.1 = reply HTTP_202_ACCEPTED PAUSED
  ∧ first.2 = [Called_pause (Some true)]
  ∧ second.1.1 = reply HTTP_202_ACCEPTED RUNNING
  ∧ second.2 = [Called_resume].
Proof. by cbn. Qed.

(** [test_create_task]: the task just created is found under the
    identifier of the body, and the Location header names it. *)
Example create_task :
  let created :=
    POST_tasks {| url := "http://localhost:8000/tasks" |} _TASK
               (handler_with (idle_worker true)) in
  http_status created.1.1 = HTTP_201_CREATED
  ∧ http_body created.1.1 = Content {| tr_task_id := "task-0" |}
  ∧ http_headers created.1.1 !! "Location" = Some "http://localhost:8000/tasks/task-0"
  ∧ tt_task <$> WorkerAPI.get_pending_task "task-0" (worker created.1.2) = Some _TASK.
Proof. by cbn. Qed.

(** A request without identifier is echoed even though the worker's
    active task is another one. *)
Example echo_is_not_the_active_task :
  let w := _on_state_change IDLE
             {| cell := RUNNING;
                registry := {[ "done" := {| tt_task_id := "done"; tt_task := _TASK;
                                            is_complete := true; errors := [] |} ]};
                active := Some "done"; synchronous := true |} in
  (PUT_worker_task {| task_id := None |} (handler_with w)).1.1
  = reply HTTP_200_OK {| task_id := None |}
  ∧ tt_task_id <$> WorkerAPI.get_active_task w = Some "done".
Proof. by cbn. Qed.

End Scenarios.

(** * More of the application *)

Ltac run_application :=
  unfold App.GET_plans, App.GET_devices, App.GET_worker_task, App.get_plans,
    App.get_devices, App.get_active_task;
  run_endpoint.

Section Paths.
Import Stdlib.Strings.Ascii.
Import Service App.

Lemma split_on_cons sep s : ∃ seg segs, split_on sep s = seg :: segs.
Proof.
  induction s as [|c s (seg & segs & IH)]; cbn; [eauto|].
  destruct (Ascii.eqb c sep); [eauto|]. rewrite IH. eauto.
Qed.

Lemma split_on_whole sep s seg : split_on sep s = [seg] → seg = s.
Proof.
  revert seg. induction s as [|c s IH]; intros seg; cbn.
  - by intros [= <-].
  - destruct (Ascii.eqb c sep).
    + destruct (split_on_cons sep s) as (seg' & segs & ->). discriminate.
    + destruct (split_on_cons sep s) as (seg' & segs & Hs). rewrite Hs in *.
      intros [= <- ->]. by rewrite (IH seg' eq_refl).
Qed.

(** A request that was routed by name has been answered by the endpoint
    called with some name. *)
Lemma routed_by_name_plans {R} (call : string → R) path answer :
  routed_by_name To_get_plan_by_name call path = Some answer →
  ∃ name, answer = call name.
Proof.
  unfold routed_by_name.
  destruct (match_route GET path) as [found|]; [|discriminate].
  destruct (path_segments path) as [[|s1 [|name [|]]]|]; try discriminate.
  case_decide; [|discriminate]. intros [= <-]. eauto.
Qed.

Lemma routed_by_name_devices {R} (call : string → R) path answer :
  routed_by_name To_get_device_by_name call path = Some answer →
  ∃ name, answer = call name.
Proof.
  unfold routed_by_name.
  destruct (match_route GET path) as [found|]; [|discriminate].
  destruct (path_segments path) as [[|s1 [|name [|]]]|]; try discriminate.
  case_decide; [|discriminate]. intros [= <-]. eauto.
Qed.

Lemma segments_under (literal name : string) (template : list Segment) :
  template_matches (Lit literal :: template) (literal :: split_on "/"%char name) = true →
  template = [Param "name"] ∨ template = [Param "task_id"] →
  split_on "/"%char name = [name].
Proof.
  intros Hmatch Htemplate. cbn -[String.eqb] in Hmatch.
  apply andb_true_iff in Hmatch as [_ Hrest].
  destruct (split_on "/"%char name) as [|seg [|seg' segs]] eqn:Hsplit.
  - by destruct Htemplate as [-> | ->].
  - by rewrite (split_on_whole _ _ _ Hsplit).
  - destruct Htemplate as [-> | ->]; cbn in Hrest;
      by rewrite andb_false_r in Hrest.
Qed.

Lemma plans_path_segments name :
  match_route GET ("/plans/" +:+ name) = Some To_get_plan_by_name →
  path_segments ("/plans/" +:+ name) = Some ["plans"; name].
Proof.
  unfold match_route.
  change (path_segments ("/plans/" +:+ name))
    with (Some ("plans" :: split_on "/"%char name)).
  cbv beta iota.
  destruct (List.find _ ROUTES) as [r|] eqn:Hfind; [|discriminate].
  apply find_some in Hfind as [Hin Hmatch].
  intros [= Hendpoint]. unfold ROUTES in Hin. cbn in Hin.
  destruct_or!; try done; subst r; try discriminate Hendpoint.
  unfold route_matches in Hmatch. cbn [fst snd method_eqb andb] in Hmatch.
  by rewrite (segments_under "plans" name [Param "name"] Hmatch (or_introl eq_refl)).
Qed.

Lemma devices_path_segments name :
  match_route GET ("/devices/" +:+ name) = Some To_get_device_by_name →
  path_segments ("/devices/" +:+ name) = Some ["devices"; name].
Proof.
  unfold match_route.
  change (path_segments ("/devices/" +:+ name))
    with (Some ("devices" :: split_on "/"%char name)).
  cbv beta iota.
  destruct (List.find _ ROUTES) as [r|] eqn:Hfind; [|discriminate].
  apply find_some in Hfind as [Hin Hmatch].
  intros [= Hendpoint]. unfold ROUTES in Hin. cbn in Hin.
  destruct_or!; try done; subst r; try discriminate Hendpoint.
  unfold route_matches in Hmatch. cbn [fst snd method_eqb andb] in Hmatch.
  by rewrite (segments_under "devices" name [Param "name"] Hmatch (or_introl eq_refl)).
Qed.

End Paths.

Section Listings.
Import Service App.
Context {Plan PlanModel Device DeviceModel : Type}.
Context (from_plan : Plan → PlanModel) (from_device : Device → DeviceModel).
Context {W : Type} `{!WorkerAPI.Worker W}.

Implicit Types (h : Handler Plan Device W).

Lemma values_of_catalogue {A B} (f : A → B) (m : gmap string A) (y : B) :
  y ∈ f <$> (map_to_list m).*2 ↔ ∃ name x, m !! name = Some x ∧ y = f x.
Proof.
  rewrite list_elem_of_fmap. split.
  - intros (x & -> & Hx). apply list_elem_of_fmap in Hx as ([name x'] & -> & Hin).
    apply elem_of_map_to_list in Hin. eauto.
  - intros (name & x & Hl & ->). exists x. split; [done|].
    apply list_elem_of_fmap. exists (name, x). split; [done|].
    by apply elem_of_map_to_list.
Qed.

Lemma get_plans_run h :
  GET_plans from_plan h
  = (reply HTTP_200_OK
       {| pr_plans := from_plan <$> (map_to_list (plans (context h))).*2 |}, h, []).
Proof. by run_application. Qed.

Lemma get_devices_run h :
  GET_devices from_device h
  = (reply HTTP_200_OK
       {| dr_devices := from_device <$> (map_to_list (devices (context h))).*2 |}, h, []).
Proof. by run_application. Qed.

(** X1. [GET /plans] and [GET /devices] answer 200 whatever the
    catalogue holds, also when it is empty, make no call on the worker
    and leave the handler as it was. The listing has one item for each
    entry of the catalogue: as many items as entries, and an item is in
    it exactly when it is the model of some entry. *)
Theorem listings_hold_the_catalogue h :
  (∃ items,
     GET_plans from_plan h = (reply HTTP_200_OK {| pr_plans := items |}, h, [])
     ∧ length items = size (plans (context h))
     ∧ ∀ pm, pm ∈ items
             ↔ ∃ name plan, plans (context h) !! name = Some plan ∧ pm = from_plan plan)
  ∧ (∃ items,
       GET_devices from_device h
       = (reply HTTP_200_OK {| dr_devices := items |}, h, [])
       ∧ length items = size (devices (context h))
       ∧ ∀ dm, dm ∈ items
               ↔ ∃ name device, devices (context h) !! name = Some device
                                ∧ dm = from_device device).
Proof.
  split.
  - exists (from_plan <$> (map_to_list (plans (context h))).*2).
    split; [apply get_plans_run|]. split.
    + by rewrite !length_fmap, length_map_to_list.
    + intros pm. apply values_of_catalogue.
  - exists (from_device <$> (map_to_list (devices (context h))).*2).
    split; [apply get_devices_run|]. split.
    + by rewrite !length_fmap, length_map_to_list.
    + intros dm. apply values_of_catalogue.
Qed.

Lemma get_plan_by_name_run h name :
  GET_plans_name from_plan name h
  = match plans (context h) !! name with
    | Some plan => (reply HTTP_200_OK (from_plan plan), h, [])
    | None => (refusal HTTP_404_NOT_FOUND "Item not found", h, [])
    end.
Proof.
  unfold GET_plans_name. run_endpoint. by destruct (plans (context h) !! name).
Qed.

Lemma get_device_by_name_run h name :
  GET_devices_name from_device name h
  = match devices (context h) !! name with
    | Some device => (reply HTTP_200_OK (from_device device), h, [])
    | None => (refusal HTTP_404_NOT_FOUND "Item not found", h, [])
    end.
Proof.
  unfold GET_devices_name. run_endpoint. by destruct (devices (context h) !! name).
Qed.

(** X2. The listing and the lookup by name agree. Every item that a GET
    request routed to [/plans/{name}] returns with 200 is in the listing
    of [GET /plans]; and every entry of the catalogue whose key the route
    accepts as [{name}] (a key that is not empty and holds no slash) is
    in the listing and is what the request for [/plans/] followed by the
    key returns. The same for devices. *)
Theorem listing_agrees_with_lookup h :
  (∃ items,
     GET_plans from_plan h = (reply HTTP_200_OK {| pr_plans := items |}, h, [])
     ∧ (∀ path pm,
          routed_by_name To_get_plan_by_name
            (λ name, GET_plans_name from_plan name h) path
          = Some (reply HTTP_200_OK pm, h, []) →
          pm ∈ items)
     ∧ (∀ name plan,
          plans (context h) !! name = Some plan →
          match_route GET ("/plans/" +:+ name) = Some To_get_plan_by_name →
          from_plan plan ∈ items
          ∧ routed_by_name To_get_plan_by_name
              (λ name, GET_plans_name from_plan name h) ("/plans/" +:+ name)
            = Some (reply HTTP_200_OK (from_plan plan), h, [])))
  ∧ (∃ items,
       GET_devices from_device h
       = (reply HTTP_200_OK {| dr_devices := items |}, h, [])
       ∧ (∀ path dm,
            routed_by_name To_get_device_by_name
              (λ name, GET_devices_name from_device name h) path
            = Some (reply HTTP_200_OK dm, h, []) →
            dm ∈ items)
       ∧ (∀ name device,
            devices (context h) !! name = Some device →
            match_route GET ("/devices/" +:+ name) = Some To_get_device_by_name →
            from_device device ∈ items
            ∧ routed_by_name To_get_device_by_name
                (λ name, GET_devices_name from_device name h) ("/devices/" +:+ name)
              = Some (reply HTTP_200_OK (from_device device), h, []))).
Proof.
  split.
  - eexists. split; [apply get_plans_run|]. split.
    + intros path pm Hrouted.
      apply routed_by_name_plans in Hrouted as (name & Hrun).
      rewrite get_plan_by_name_run in Hrun.
      destruct (plans (context h) !! name) as [plan|] eqn:Hl; [|discriminate].
      apply values_of_catalogue. exists name, plan. split; [done|].
      by injection Hrun.
    + intros name plan Hl Hroute. split.
      { apply values_of_catalogue. eauto. }
      unfold routed_by_name.
      rewrite Hroute, (plans_path_segments name Hroute).
      case_decide; [|done]. by rewrite get_plan_by_name_run, Hl.
  - eexists. split; [apply get_devices_run|]. split.
    + intros path dm Hrouted.
      apply routed_by_name_devices in Hrouted as (name & Hrun).
      rewrite get_device_by_name_run in Hrun.
      destruct (devices (context h) !! name) as [device|] eqn:Hl; [|discriminate].
      apply values_of_catalogue. exists name, device. split; [done|].
      by injection Hrun.
    + intros name device Hl Hroute. split.
      { apply values_of_catalogue. eauto. }
      unfold routed_by_name.
      rewrite Hroute, (devices_path_segments name Hroute).
      case_decide; [|done]. by rewrite get_device_by_name_run, Hl.
Qed.

End Listings.

Ltac settle_step :=
  cbn; unfold App.replay; cbn; split_and?; try done; try lia.

Section Sequences.
Import Service App.
Context {Plan PlanModel Device DeviceModel : Type}.
Context (from_plan : Plan → PlanModel) (from_device : Device → DeviceModel).
Context {W : Type} `{!WorkerAPI.Worker W}.
Context (of_worker : W → WorkerTask).

Implicit Types (h : Handler Plan Device W) (r : ApiRequest) (rs : list ApiRequest).

Local Abbreviation handle := (handle from_plan from_device of_worker).
Local Abbreviation handle_all := (handle_all from_plan from_device of_worker).

(** What one request leaves: the catalogue it found, and the worker that
    its recorded calls, at most one, make of the worker it found. *)
Lemma handle_step r h :
  context (handle r h).1.2 = context h
  ∧ worker (handle r h).1.2 = replay (handle r h).2 (worker h)
  ∧ (length (handle r h).2 ≤ 1)%nat.
Proof.
  destruct r as [|name| |name|request task|task|id| | |req]; unfold App.handle, outcome_of.
  - rewrite get_plans_run. settle_step.
  - rewrite get_plan_by_name_run.
    destruct (plans (context h) !! name); settle_step.
  - rewrite get_devices_run. settle_step.
  - rewrite get_device_by_name_run.
    destruct (devices (context h) !! name); settle_step.
  - unfold POST_tasks. run_endpoint.
    destruct (WorkerAPI.submit_task task (worker h)) as [id w'] eqn:Hs.
    settle_step. by rewrite Hs.
  - destruct (active_and_incomplete (WorkerAPI.get_active_task (worker h))) eqn:Hb.
    { rewrite (update_task_conflict_run h task Hb). settle_step. }
    destruct (task_id task) as [id|] eqn:Hid.
    + rewrite (update_task_begin_run h task id Hb Hid).
      destruct (WorkerAPI.begin_task id (worker h)) as [e | w'] eqn:Hbegin;
        settle_step; by rewrite Hbegin.
    + rewrite (update_task_null_run h task Hb Hid). settle_step.
  - unfold GET_tasks_id. run_endpoint.
    destruct (WorkerAPI.get_pending_task id (worker h)); settle_step.
  - unfold GET_worker_task. run_application. settle_step.
  - unfold GET_worker_state. run_endpoint. settle_step.
  - destruct (transition_allowed (WorkerAPI.state (worker h)) (new_state req)) eqn:Hb.
    + apply Table.transition_allowed_in_table, Table.in_table_cases in Hb.
      destruct Hb as [[Hc Hn] | [Hc Hn]].
      * rewrite (set_state_pause_run h req Hc Hn). settle_step.
      * rewrite (set_state_resume_run h req Hc Hn). settle_step.
    + rewrite (set_state_refused_run h req Hb). settle_step.
Qed.

Lemma replay_app made made' (w : W) :
  replay (made ++ made') w = replay made' (replay made w).
Proof. unfold replay. apply foldl_app. Qed.

Lemma handle_all_cons r rs h :
  handle_all (r :: rs) h
  = ((handle r h).1.1 :: (handle_all rs (handle r h).1.2).1.1,
     (handle_all rs (handle r h).1.2).1.2,
     (handle r h).2 ++ (handle_all rs (handle r h).1.2).2).
Proof.
  cbn. destruct (handle r h) as [[status h'] made]. cbn.
  by destruct (App.handle_all _ _ _ rs h') as [[statuses h''] made'].
Qed.

(** X3. No sequence of requests changes the catalogue of plans and
    devices: the handler at the end holds the catalogue it started
    with. *)
Theorem catalogue_is_never_changed rs h :
  context (handle_all rs h).1.2 = context h.
Proof.
  revert h. induction rs as [|r rs IH]; intros h; [done|].
  rewrite handle_all_cons. cbn [fst snd]. rewrite IH. apply handle_step.
Qed.

(** X4. The worker changes through the recorded calls and through
    nothing else: after any sequence of requests the worker is the one
    obtained by making the recorded calls, in order, on the worker at the
    start; and there is at most one call for each request. *)
Theorem worker_changes_by_recorded_calls rs h :
  worker (handle_all rs h).1.2 = replay (handle_all rs h).2 (worker h)
  ∧ (length (handle_all rs h).2 ≤ length rs)%nat
  ∧ length (handle_all rs h).1.1 = length rs.
Proof.
  revert h. induction rs as [|r rs IH]; intros h; [done|].
  rewrite handle_all_cons. cbn [fst snd].
  destruct (IH (handle r h).1.2) as (Hw & Hn & Hs).
  destruct (handle_step r h) as (_ & Hw1 & Hn1).
  split; [|split].
  - by rewrite replay_app, <- Hw1.
  - rewrite length_app. cbn [length]. lia.
  - cbn [length]. by rewrite Hs.
Qed.

Lemma read_step r h :
  is_read r = true → (handle r h).1.2 = h ∧ (handle r h).2 = [].
Proof.
  destruct r as [|name| |name|request task|task|id| | |req]; try discriminate;
    intros _; unfold App.handle, outcome_of.
  - by rewrite get_plans_run.
  - rewrite get_plan_by_name_run. by destruct (plans (context h) !! name).
  - by rewrite get_devices_run.
  - rewrite get_device_by_name_run. by destruct (devices (context h) !! name).
  - unfold GET_tasks_id. run_endpoint.
    by destruct (WorkerAPI.get_pending_task id (worker h)).
  - unfold GET_worker_task. by run_application.
  - unfold GET_worker_state. by run_endpoint.
Qed.

(** X5. The seven GET requests only read: each leaves the handler as it
    found it and makes no call on the worker. So they can be dropped from
    any sequence of requests without changing the handler at the end or
    the calls made on the worker. *)
Theorem reads_leave_no_trace rs h :
  (∀ r, is_read r = true → (handle r h).1.2 = h ∧ (handle r h).2 = [])
  ∧ (handle_all rs h).1.2
    = (handle_all (List.filter (λ r, negb (is_read r)) rs) h).1.2
  ∧ (handle_all rs h).2
    = (handle_all (List.filter (λ r, negb (is_read r)) rs) h).2.
Proof.
  split; [intros r; apply read_step|].
  revert h. induction rs as [|r rs IH]; intros h; [done|].
  cbn [List.filter]. destruct (is_read r) eqn:Hr; cbn [negb].
  - rewrite handle_all_cons. cbn [fst snd].
    destruct (read_step r h Hr) as [-> ->]. apply IH.
  - rewrite !handle_all_cons. cbn [fst snd].
    destruct (IH (handle r h).1.2) as [-> ->]. done.
Qed.

End Sequences.

Section Middleware.
Import Service App.
Context {Plan Device W : Type} `{!WorkerAPI.Worker W}.

Lemma application_run {A} (declared : Z) (endpoint : M (Env Plan Device W) A)
      (h : Handler Plan Device W) :
  application declared endpoint h
  = (match http_body (serve declared endpoint h).1.1 with
     | InternalServerError _ => (serve declared endpoint h).1.1
     | _ => with_header "X-API-Version" REST_API_VERSION (serve declared endpoint h).1.1
     end,
     (serve declared endpoint h).1.2,
     (serve declared endpoint h).2).
Proof.
  unfold application, add_api_version_header, call_route, serve.
  unfold mbind, M_bind, mret, M_ret, Py.bind, Py.ret. cbn.
  destruct (run endpoint _) as [[a | e] env]; cbn; [done|].
  by destruct e.
Qed.

Lemma serve_unhandled_bare {A} (declared : Z) (endpoint : M (Env Plan Device W) A)
      (h : Handler Plan Device W) (e : exn) :
  http_body (serve declared endpoint h).1.1 = InternalServerError e →
  http_headers (serve declared endpoint h).1.1 = ∅.
Proof.
  unfold serve. destruct (run endpoint _) as [[a | err] env]; cbn; [done|].
  by destruct err.
Qed.

(** X6. The middleware changes nothing but the headers: status, body,
    the handler left and the calls made on the worker are those of the
    route. Every answer that comes back through it, the answer to an
    [HTTPException] included, carries [X-API-Version: 0.0.3], and its
    other headers are as the route set them. Only the 500 that answers an
    exception nothing handled goes out without the header. *)
Theorem api_version_header_on_answers {A} (declared : Z)
        (endpoint : M (Env Plan Device W) A) (h : Handler Plan Device W) :
  (application declared endpoint h).1.2 = (serve declared endpoint h).1.2
  ∧ (application declared endpoint h).2 = (serve declared endpoint h).2
  ∧ http_status (application declared endpoint h).1.1
    = http_status (serve declared endpoint h).1.1
  ∧ http_body (application declared endpoint h).1.1
    = http_body (serve declared endpoint h).1.1
  ∧ ((∀ e, http_body (serve declared endpoint h).1.1 ≠ InternalServerError e) →
     http_headers (application declared endpoint h).1.1 !! "X-API-Version"
     = Some "0.0.3"
     ∧ ∀ key, key ≠ "X-API-Version" →
              http_headers (application declared endpoint h).1.1 !! key
              = http_headers (serve declared endpoint h).1.1 !! key)
  ∧ (∀ e, http_body (serve declared endpoint h).1.1 = InternalServerError e →
          http_headers (application declared endpoint h).1.1 = ∅).
Proof.
  rewrite application_run. cbn [fst snd].
  destruct (serve declared endpoint h) as [[r h'] made] eqn:Hserve. cbn [fst snd].
  assert (∀ e, http_body r = InternalServerError e → http_headers r = ∅) as Hbare.
  { intros e. pose proof (serve_unhandled_bare declared endpoint h e) as Hb.
    by rewrite Hserve in Hb. }
  destruct (http_body r) as [a | d | e] eqn:Hbody; cbn; rewrite ?Hbody;
    split_and!; try done.
  - intros _. split; [apply lookup_insert_eq|].
    intros key Hkey. by apply lookup_insert_ne.
  - intros _. split; [apply lookup_insert_eq|].
    intros key Hkey. by apply lookup_insert_ne.
  - intros Hhandled. by destruct (Hhandled e).
Qed.

End Middleware.

(** ** The route table *)

Local Set Warnings "-clear-no-such-hyp".

Section Routes.
Import Stdlib.Strings.Ascii.
Import Service App.





Ltac literal_segments :=
  repeat match goal with
         | H : _ && _ = true |- _ => apply andb_true_iff in H as [? ?]
         | H : String.eqb _ _ = true |- _ => apply String.eqb_eq in H; subst
         | H : negb _ = true |- _ => apply negb_true_iff in H
         end.

Lemma first_match_is_only_match m segs r :
  r ∈ ROUTES → route_matches m segs r = true →
  List.find (route_matches m segs) ROUTES = Some r.
Proof.
  unfold ROUTES. intros Hin Hmatch. set_unfold in Hin.
  destruct_or!; subst r; unfold route_matches in Hmatch; cbn [fst snd] in Hmatch;
    destruct m; try discriminate Hmatch;
    cbn [method_eqb andb] in Hmatch;
    destruct segs as [|s1 [|s2 [|s3 rest]]]; try discriminate Hmatch;
    cbn -[String.eqb] in Hmatch; literal_segments; try discriminate;
    unfold route_matches; cbn;
    repeat match goal with
           | H : String.eqb _ _ = false |- _ => rewrite H; clear H
           end;
    done.
Qed.

(** X8. The route table is unambiguous: when a route matches a request,
    it is the one [match_route] picks, so no two routes match the same
    request and no route is hidden behind an earlier one; and every route
    is reached by some path. *)
Theorem routes_do_not_overlap :
  (∀ m path segs r,
     path_segments path = Some segs → r ∈ ROUTES →
     route_matches m segs r = true → match_route m path = Some r.2)
  ∧ (∀ m segs r r',
       r ∈ ROUTES → r' ∈ ROUTES →
       route_matches m segs r = true → route_matches m segs r' = true → r = r')
  ∧ (∀ r, r ∈ ROUTES → ∃ path, match_route r.1.1 path = Some r.2).
Proof.
  split_and!.
  - intros m path segs r Hpath Hin Hmatch. unfold match_route.
    by rewrite Hpath, (first_match_is_only_match m segs r Hin Hmatch).
  - intros m segs r r' Hin Hin' Hmatch Hmatch'.
    pose proof (first_match_is_only_match m segs r Hin Hmatch) as Hfirst.
    pose proof (first_match_is_only_match m segs r' Hin' Hmatch') as Hfirst'.
    congruence.
  - unfold ROUTES. intros r Hin. set_unfold in Hin.
    destruct_or!; subst r; cbn [fst snd].
    + by exists "/openapi.json".
    + by exists "/docs".
    + by exists "/docs/oauth2-redirect".
    + by exists "/redoc".
    + by exists "/plans".
    + by exists "/plans/count".
    + by exists "/devices".
    + by exists "/devices/x".
    + by exists "/tasks".
    + by exists "/worker/task".
    + by exists "/tasks/t1".
    + by exists "/worker/task".
    + by exists "/worker/state".
    + by exists "/worker/state".
Qed.

End Routes.

(** * More of the command-line client *)

Section CliRuns.
Import Cli.
Context (network : World → HttpRequest → outcome HttpReply).
Context (json_loads : string → outcome json).
Context (py_repr : json → string).

Local Abbreviation run_plan := (run_plan network json_loads py_repr).
Local Abbreviation controller_run := (controller_run network json_loads py_repr).

(** Every run of [run_plan], by the step at which it stops. *)
Lemma run_plan_cases config name parameters id w :
  run (run_plan config name parameters id) w
  = match json_loads parameters with
    | Raise e => (Raise e, w ++ [AmqEnter; AmqExit])
    | Return params =>
        let create := create_request config name params in
        match network (w ++ [AmqEnter]) create with
        | Raise e => (Raise e, w ++ [AmqEnter; Http create; AmqExit])
        | Return created_reply =>
            match json_body created_reply with
            | None => (Raise JSONDecodeError, w ++ [AmqEnter; Http create; AmqExit])
            | Some created =>
                match getitem created "taskId" with
                | Raise e => (Raise e, w ++ [AmqEnter; Http create; AmqExit])
                | Return task =>
                    let begin := begin_request py_repr config task in
                    match network (w ++ [AmqEnter; Http create;
                                         AmqSubscribeToTopics task]) begin with
                    | Raise e =>
                        (Raise e,
                         w ++ [AmqEnter; Http create; AmqSubscribeToTopics task;
                               Http begin; AmqExit])
                    | Return started_reply =>
                        (Return (),
                         w ++ [AmqEnter; Http create; AmqSubscribeToTopics task;
                               Http begin;
                               Print ("Response returned with "
                                      +:+ pretty (status_code started_reply));
                               AmqWaitForComplete; AmqExit])
                    end
                end
            end
        end
    end.
Proof.
  run_command. unfold create_request, begin_request.
  destruct (json_loads parameters) as [params | e]; cbn;
    [|by rewrite <- !app_assoc].
  destruct (network (w ++ [AmqEnter]) _) as [r1 | e]; cbn;
    [|by rewrite <- !app_assoc].
  destruct (json_body r1) as [created |]; cbn; [|by rewrite <- !app_assoc].
  destruct (getitem created "taskId") as [task | e]; cbn;
    [|by rewrite <- !app_assoc].
  rewrite <- !app_assoc. cbn.
  match goal with |- context [network ?w' ?r] => destruct (network w' r) as [r2 | e] end;
    cbn; by rewrite <- !app_assoc.
Qed.

(** X9. Every run of [run_plan] that ends in an exception, whichever step
    raised it, has left the AMQ client: the client was entered before
    anything else happened and left after everything else, each exactly
    once, and [wait_for_complete] was not called in between. *)
Theorem amq_client_is_left_on_failure config name parameters id w e :
  (run (run_plan config name parameters id) w).1 = Raise e →
  ∃ between,
    (run (run_plan config name parameters id) w).2
    = w ++ (AmqEnter :: between ++ [AmqExit])
    ∧ (AmqEnter ∉ between) ∧ (AmqExit ∉ between) ∧ (AmqWaitForComplete ∉ between).
Proof.
  rewrite run_plan_cases.
  destruct (json_loads parameters) as [params | e']; cbn [fst snd].
  2: { intros _. exists []. split; [done|]. set_solver. }
  cbn zeta. destruct (network _ _) as [r1 | e']; cbn [fst snd].
  2: { intros _. eexists [_]. split; [done|]. set_solver. }
  destruct (json_body r1) as [created |]; cbn [fst snd].
  2: { intros _. eexists [_]. split; [done|]. set_solver. }
  destruct (getitem created "taskId") as [task | e']; cbn [fst snd].
  2: { intros _. eexists [_]. split; [done|]. set_solver. }
  destruct (network _ _) as [r2 | e']; cbn [fst snd]; [discriminate|].
  intros _. eexists [_; _; _]. split; [done|]. set_solver.
Qed.

(** X10. When the parameters are not valid JSON, [run_plan] stops before
    any request is sent: it raises the decoder's exception having only
    entered and left the AMQ client; and the command lets that exception
    through without printing anything. *)
Theorem invalid_parameters_send_nothing config name parameters id w e :
  json_loads parameters = Raise e →
  run (run_plan config name parameters id) w = (Raise e, w ++ [AmqEnter; AmqExit])
  ∧ (e ≠ ConnectionError →
     run (controller_run config name parameters id) w
     = (Raise e, w ++ [AmqEnter; AmqExit])).
Proof.
  intros Hloads.
  assert (run (run_plan config name parameters id) w
          = (Raise e, w ++ [AmqEnter; AmqExit])) as Hrun.
  { by rewrite run_plan_cases, Hloads. }
  split; [done|]. intros Hother. unfold Cli.controller_run.
  rewrite check_connection_run, Hrun. by destruct e.
Qed.

(** X11. When the answer to the create request is not JSON, or is a JSON
    object without the key [taskId], the command fails with
    [JSONDecodeError], respectively [KeyError], after that one request:
    nothing is subscribed to, begin is not signalled, nothing is waited
    for, nothing is printed, and the AMQ client is left. *)
Theorem unusable_create_reply_stops_run config name parameters id w params reply :
  json_loads parameters = Return params →
  network (w ++ [AmqEnter]) (create_request config name params) = Return reply →
  (json_body reply = None →
   run (controller_run config name parameters id) w
   = (Raise JSONDecodeError,
      w ++ [AmqEnter; Http (create_request config name params); AmqExit]))
  ∧ (∀ members,
       json_body reply = Some (JObj members) → dict_get members "taskId" = None →
       run (controller_run config name parameters id) w
       = (Raise (KeyError "taskId"),
          w ++ [AmqEnter; Http (create_request config name params); AmqExit])).
Proof.
  intros Hloads Hcreate. split.
  - intros Hbody. unfold Cli.controller_run.
    rewrite check_connection_run, run_plan_cases, Hloads. cbn zeta.
    by rewrite Hcreate, Hbody.
  - intros members Hbody Hkey. unfold Cli.controller_run.
    rewrite check_connection_run, run_plan_cases, Hloads. cbn zeta.
    rewrite Hcreate, Hbody. unfold getitem. by rewrite Hkey.
Qed.

(** X12. [run_plan] returns normally only from its last line: if it
    returned, then the parameters were valid JSON, both requests were
    answered, the answer to the create request was JSON holding
    [taskId], and the run subscribed, printed the status of the begin
    request and called [wait_for_complete] before it left the AMQ
    client. *)
Theorem run_plan_returns_only_after_wait config name parameters id w :
  (run (run_plan config name parameters id) w).1 = Return () →
  ∃ params created_reply created task started_reply,
    json_loads parameters = Return params
    ∧ network (w ++ [AmqEnter]) (create_request config name params)
      = Return created_reply
    ∧ json_body created_reply = Some created
    ∧ getitem created "taskId" = Return task
    ∧ network (w ++ [AmqEnter; Http (create_request config name params);
                     AmqSubscribeToTopics task])
              (begin_request py_repr config task)
      = Return started_reply
    ∧ (run (run_plan config name parameters id) w).2
      = w ++ [AmqEnter;
              Http (create_request config name params);
              AmqSubscribeToTopics task;
              Http (begin_request py_repr config task);
              Print ("Response returned with "
                     +:+ pretty (status_code started_reply));
              AmqWaitForComplete;
              AmqExit].
Proof.
  rewrite run_plan_cases. intros Hreturned.
  destruct (json_loads parameters) as [params | e'] eqn:Hloads;
    [|discriminate Hreturned].
  cbn zeta in *.
  destruct (network (w ++ [AmqEnter]) (create_request config name params))
    as [r1 | e'] eqn:Hcreate; [|discriminate Hreturned].
  destruct (json_body r1) as [created |] eqn:Hbody; [|discriminate Hreturned].
  destruct (getitem created "taskId") as [task | e'] eqn:Htask;
    [|discriminate Hreturned].
  destruct (network (w ++ [AmqEnter; Http (create_request config name params);
                           AmqSubscribeToTopics task])
                    (begin_request py_repr config task))
    as [r2 | e'] eqn:Hbegin; [|discriminate Hreturned].
  by exists params, r1, created, task, r2.
Qed.

(** X13. When the server answers the create request but cannot be
    reached for the begin request, the command has subscribed and sent
    both requests, does not wait, leaves the AMQ client, prints the
    connection failure and returns normally. *)
Theorem unreachable_at_begin_does_not_wait config name parameters id w
        params reply created task :
  json_loads parameters = Return params →
  network (w ++ [AmqEnter]) (create_request config name params) = Return reply →
  json_body reply = Some created →
  getitem created "taskId" = Return task →
  network (w ++ [AmqEnter; Http (create_request config name params);
                 AmqSubscribeToTopics task])
          (begin_request py_repr config task)
  = Raise ConnectionError →
  run (controller_run config name parameters id) w
  = (Return (),
     w ++ [AmqEnter; Http (create_request config name params);
           AmqSubscribeToTopics task; Http (begin_request py_repr config task);
           AmqExit; Print connection_failure_message]).
Proof.
  intros Hloads Hcreate Hbody Htask Hbegin. unfold Cli.controller_run.
  rewrite check_connection_run, run_plan_cases, Hloads. cbn zeta.
  rewrite Hcreate, Hbody, Htask, Hbegin. cbn. by rewrite <- app_assoc.
Qed.

(** X14. The option [--id] of [run] has no effect: the run is the same
    whatever identifier is given, or none. *)
Theorem run_ignores_correlation_id config name parameters id id' w :
  run (controller_run config name parameters id) w
  = run (controller_run config name parameters id') w.
Proof.
  unfold Cli.controller_run. by rewrite !check_connection_run, !run_plan_cases.
Qed.

Lemma get_listing_cases (path : string) config w :
  run (check_connection
         (resp ← requests_get network (base_url config +:+ path);
          print ("Response returned with " +:+ pretty (status_code resp) +:+ ": ");;
          body ← reply_json resp;
          pprint body)) w
  = let request := {| method := GET; target := base_url config +:+ path;
                      payload := None |} in
    match network w request with
    | Raise e => checked (Raise e : outcome unit, w ++ [Http request])
    | Return resp =>
        let line := Print ("Response returned with "
                           +:+ pretty (status_code resp) +:+ ": ") in
        match json_body resp with
        | Some body => (Return (), w ++ [Http request; line; PPrint body])
        | None => (Raise JSONDecodeError, w ++ [Http request; line])
        end
    end.
Proof.
  rewrite check_connection_run. run_command.
  destruct (network w _) as [resp | e]; cbn; [|done].
  destruct (json_body resp) as [body |]; cbn; by rewrite <- !app_assoc.
Qed.

(** X15. [controller plans] and [controller devices] send one GET
    request, to [/plans] and to [/devices]. When it is answered they
    print the status code, whatever it is, and then the JSON body; when
    the body is not JSON the status line is printed and the command fails
    with [JSONDecodeError], which [check_connection] lets through. *)
Theorem listing_commands_print_status_then_body config w reply :
  (network w {| method := GET; target := base_url config +:+ "/plans";
                payload := None |} = Return reply →
   run (controller_plans network config) w
   = match json_body reply with
     | Some body =>
         (Return (),
          w ++ [Http {| method := GET; target := base_url config +:+ "/plans";
                        payload := None |};
                Print ("Response returned with "
                       +:+ pretty (status_code reply) +:+ ": ");
                PPrint body])
     | None =>
         (Raise JSONDecodeError,
          w ++ [Http {| method := GET; target := base_url config +:+ "/plans";
                        payload := None |};
                Print ("Response returned with "
                       +:+ pretty (status_code reply) +:+ ": ")])
     end)
  ∧ (network w {| method := GET; target := base_url config +:+ "/devices";
                  payload := None |} = Return reply →
     run (controller_devices network config) w
     = match json_body reply with
       | Some body =>
           (Return (),
            w ++ [Http {| method := GET; target := base_url config +:+ "/devices";
                          payload := None |};
                  Print ("Response returned with "
                         +:+ pretty (status_code reply) +:+ ": ");
                  PPrint body])
       | None =>
           (Raise JSONDecodeError,
            w ++ [Http {| method := GET; target := base_url config +:+ "/devices";
                          payload := None |};
                  Print ("Response returned with "
                         +:+ pretty (status_code reply) +:+ ": ")])
       end).
Proof.
  split; intros Hreply.
  - unfold controller_plans, get_plans. cbn zeta.
    rewrite (get_listing_cases "/plans"). cbn zeta. by rewrite Hreply.
  - unfold controller_devices, get_devices. cbn zeta.
    rewrite (get_listing_cases "/devices"). cbn zeta. by rewrite Hreply.
Qed.

End CliRuns.

Section Wrapper.
Import Cli.

(** X16. No [ConnectionError] comes out of a function wrapped by
    [check_connection], and wrapping a function twice is the same as
    wrapping it once: the failure is reported once, not twice. *)
Theorem check_connection_absorbs {A} (func : M World A) (w : World) :
  (run (check_connection func) w).1 ≠ Raise ConnectionError
  ∧ run (check_connection (check_connection func)) w
    = run (check_connection func) w.
Proof.
  rewrite !check_connection_run.
  destruct (run func w) as [[a | e] w']; cbn; [done|].
  by destruct e.
Qed.

End Wrapper.

Section Stale.
Import Cli.
Context (network : World → HttpRequest → outcome HttpReply).
Context (json_loads : string → outcome json).
Context (py_repr : json → string).


End Stale.

Section Refusals.
Import Service.
Context {Plan Device W : Type} `{!WorkerAPI.Worker W}.

(** X18. No request can ask for IDLE, and none for the state the worker
    is already in: such a request is answered 400 with the current state,
    whatever that state is, and nothing is called or changed. *)
Theorem set_state_refuses_idle_and_same (h : Handler Plan Device W) req :
  new_state req = IDLE ∨ new_state req = WorkerAPI.state (worker h) →
  PUT_worker_state req h
  = (reply HTTP_400_BAD_REQUEST (WorkerAPI.state (worker h)), h, []).
Proof.
  intros Hreq. apply set_state_refused_run, Table.transition_refused.
  rewrite Table.in_table_cases. intros [[Hc Hn] | [Hc Hn]];
    destruct Hreq as [Hi | Hs]; congruence.
Qed.

End Refusals.

(** ** The further statements at work *)

Section FurtherOnTheTestDouble.
Import Service App TestDouble Fixtures.

(** The matcher on the paths of the tests. *)
Example routes_of_the_tests :
  match_route GET "/plans" = Some To_get_plans
  ∧ match_route GET "/plans/my-plan" = Some To_get_plan_by_name
  ∧ match_route GET "/devices/my-device" = Some To_get_device_by_name
  ∧ match_route POST "/tasks" = Some To_submit_task
  ∧ match_route PUT "/worker/task" = Some To_update_task
  ∧ match_route GET "/worker/state" = Some To_get_state
  ∧ match_route PUT "/worker/state" = Some To_set_state
  ∧ match_route GET "/plans/" = None
  ∧ match_route PUT "/tasks" = None.
Proof. by split_and!. Qed.

(** The listing of the tests' catalogue. *)
Example listing_of_the_tests :
  GET_plans id (handler_with (idle_worker true))
  = (reply HTTP_200_OK {| pr_plans := ["my-plan"] |}, handler_with (idle_worker true), []).
Proof. reflexivity. Qed.

Lemma listing_agrees_with_lookup_witness :
  ∃ items,
    GET_plans id (handler_with (idle_worker true))
    = (reply HTTP_200_OK {| pr_plans := items |}, handler_with (idle_worker true), [])
    ∧ "my-plan" ∈ items
    ∧ routed_by_name To_get_plan_by_name
        (λ name, GET_plans_name id name (handler_with (idle_worker true)))
        "/plans/my-plan"
      = Some (reply HTTP_200_OK "my-plan", handler_with (idle_worker true), []).
Proof.
  destruct (proj1 (listing_agrees_with_lookup id id (handler_with (idle_worker true))))
    as (items & Hlisting & Hlisted & Hfound).
  exists items. split; [exact Hlisting|].
  split.
  - exact (Hlisted "/plans/my-plan" "my-plan" eq_refl).
  - exact (proj2 (Hfound "my-plan" "my-plan" eq_refl eq_refl)).
Defined.

Lemma reads_leave_no_trace_witness :
  (handle id id of_sim_worker (GetPlanByName "my-plan")
          (handler_with (running_worker true))).1.2
  = handler_with (running_worker true)
  ∧ (handle id id of_sim_worker (GetPlanByName "my-plan")
            (handler_with (running_worker true))).2 = [].
Proof.
  exact (proj1 (reads_leave_no_trace id id of_sim_worker []
                  (handler_with (running_worker true)))
               (GetPlanByName "my-plan") eq_refl).
Defined.

Lemma api_version_header_on_answers_witness :
  let answer :=
    (application HTTP_201_CREATED
       (submit_task {| url := "http://localhost:8000/tasks" |} _TASK)
       (handler_with (idle_worker true))).1.1 in
  http_headers answer !! "X-API-Version" = Some "0.0.3"
  ∧ http_headers answer !! "Location" = Some "http://localhost:8000/tasks/task-0".
Proof.
  pose proof (api_version_header_on_answers HTTP_201_CREATED
                (submit_task {| url := "http://localhost:8000/tasks" |} _TASK)
                (handler_with (idle_worker true)))
    as (_ & _ & _ & _ & Hversion & _).
  assert (∀ e, http_body
                 (serve HTTP_201_CREATED
                    (submit_task {| url := "http://localhost:8000/tasks" |} _TASK)
                    (handler_with (idle_worker true))).1.1
               ≠ InternalServerError e) as Hhandled.
  { intros e. cbn. discriminate. }
  destruct (Hversion Hhandled) as [Hv Hothers].
  split; [exact Hv|].
  rewrite (Hothers "Location") by discriminate. reflexivity.
Defined.

Lemma routes_do_not_overlap_witness :
  match_route GET "/plans/count" = Some To_get_plan_by_name
  ∧ ∃ path, match_route PUT path = Some To_set_state.
Proof.
  destruct routes_do_not_overlap as (Hpick & _ & Hreached).
  split.
  - refine (Hpick GET "/plans/count" ["plans"; "count"]
              (GET, [Lit "plans"; Param "name"], To_get_plan_by_name)
              eq_refl _ eq_refl).
    unfold ROUTES. set_solver.
  - refine (Hreached (PUT, [Lit "worker"; Lit "state"], To_set_state) _).
    unfold ROUTES. set_solver.
Defined.

Lemma set_state_refuses_idle_and_same_witness :
  PUT_worker_state idle_request (handler_with (running_worker true))
  = (reply HTTP_400_BAD_REQUEST RUNNING, handler_with (running_worker true), [])
  ∧ PUT_worker_state pause_request (handler_with (paused_worker true))
    = (reply HTTP_400_BAD_REQUEST PAUSED, handler_with (paused_worker true), []).
Proof.
  split.
  - exact (set_state_refuses_idle_and_same
             (handler_with (running_worker true)) idle_request (or_introl eq_refl)).
  - exact (set_state_refuses_idle_and_same
             (handler_with (paused_worker true)) pause_request (or_intror eq_refl)).
Defined.

End FurtherOnTheTestDouble.

Section FurtherOnTheTestNetwork.
Import Cli TestDouble Fixtures.

Lemma amq_client_is_left_on_failure_witness :
  ∃ between,
    (run (run_plan answering_not_found loads_stub repr_stub config "count" "{}" None) []).2
    = [] ++ (AmqEnter :: between ++ [AmqExit])
    ∧ (AmqEnter ∉ between) ∧ (AmqExit ∉ between) ∧ (AmqWaitForComplete ∉ between).
Proof.
  exact (amq_client_is_left_on_failure answering_not_found loads_stub repr_stub config
           "count" "{}" None [] (KeyError "taskId") eq_refl).
Defined.

Lemma run_plan_returns_only_after_wait_witness :
  ∃ params created_reply created task started_reply,
    loads_stub "{}" = Return params
    ∧ answering ([] ++ [AmqEnter]) (create_request config "count" params)
      = Return created_reply
    ∧ json_body created_reply = Some created
    ∧ getitem created "taskId" = Return task
    ∧ answering ([] ++ [AmqEnter; Http (create_request config "count" params);
                        AmqSubscribeToTopics task])
                (begin_request repr_stub config task)
      = Return started_reply
    ∧ (run (run_plan answering loads_stub repr_stub config "count" "{}" None) []).2
      = [] ++ [AmqEnter;
               Http (create_request config "count" params);
               AmqSubscribeToTopics task;
               Http (begin_request repr_stub config task);
               Print ("Response returned with "
                      +:+ pretty (status_code started_reply));
               AmqWaitForComplete;
               AmqExit].
Proof.
  exact (run_plan_returns_only_after_wait answering loads_stub repr_stub config
           "count" "{}" None [] eq_refl).
Defined.

Lemma invalid_parameters_send_nothing_witness :
  run (run_plan answering loads_stub repr_stub config "count" "detectors=x" None) []
  = (Raise JSONDecodeError, [AmqEnter; AmqExit])
  ∧ run (controller_run answering loads_stub repr_stub config "count" "detectors=x" None) []
    = (Raise JSONDecodeError, [AmqEnter; AmqExit]).
Proof.
  pose proof (invalid_parameters_send_nothing answering loads_stub repr_stub config
                "count" "detectors=x" None [] JSONDecodeError eq_refl)
    as [Hrun Hcommand].
  split; [exact Hrun|]. apply Hcommand. discriminate.
Defined.

Lemma unusable_create_reply_stops_run_witness :
  run (controller_run answering_text loads_stub repr_stub config "count" "{}" None) []
  = (Raise JSONDecodeError,
     [AmqEnter; Http (create_request config "count" (JObj [])); AmqExit])
  ∧ run (controller_run answering_not_found loads_stub repr_stub config
           "count" "{}" None) []
    = (Raise (KeyError "taskId"),
       [AmqEnter; Http (create_request config "count" (JObj [])); AmqExit]).
Proof.
  split.
  - exact (proj1 (unusable_create_reply_stops_run answering_text loads_stub repr_stub
                    config "count" "{}" None [] (JObj [])
                    {| status_code := 502; json_body := None |} eq_refl eq_refl)
                 eq_refl).
  - exact (proj2 (unusable_create_reply_stops_run answering_not_found loads_stub
                    repr_stub config "count" "{}" None [] (JObj [])
                    App.not_found_reply eq_refl eq_refl)
                 [("detail", JStr "Not Found")] eq_refl eq_refl).
Defined.

Lemma unreachable_at_begin_does_not_wait_witness :
  run (controller_run lost_after_create loads_stub repr_stub config "count" "{}" None) []
  = (Return (),
     [AmqEnter; Http (create_request config "count" (JObj []));
      AmqSubscribeToTopics (JStr "t1");
      Http (begin_request repr_stub config (JStr "t1"));
      AmqExit; Print connection_failure_message]).
Proof.
  exact (unreachable_at_begin_does_not_wait lost_after_create loads_stub repr_stub
           config "count" "{}" None [] (JObj [])
           {| status_code := 200; json_body := Some (JObj [("taskId", JStr "t1")]) |}
           (JObj [("taskId", JStr "t1")]) (JStr "t1")
           eq_refl eq_refl eq_refl eq_refl eq_refl).
Defined.

Lemma listing_commands_print_status_then_body_witness :
  run (controller_plans answering config) []
  = (Return (),
     [Http {| method := GET; target := "http://localhost:8000/plans"; payload := None |};
      Print "Response returned with 200: ";
      PPrint (JObj [("taskId", JStr "t1")])])
  ∧ run (controller_devices answering_text config) []
    = (Raise JSONDecodeError,
       [Http {| method := GET; target := "http://localhost:8000/devices";
                payload := None |};
        Print "Response returned with 502: "]).
Proof.
  split.
  - exact (proj1 (listing_commands_print_status_then_body answering config []
                    {| status_code := 200;
                       json_body := Some (JObj [("taskId", JStr "t1")]) |})
                 eq_refl).
  - exact (proj2 (listing_commands_print_status_then_body answering_text config []
                    {| status_code := 502; json_body := None |})
                 eq_refl).
Defined.


End FurtherOnTheTestNetwork.
